(** * Strength evaluation of SPF and DMARC records (checker/checker.py)

    A shallow embedding of the decision engine of [checker.py]: the SPF
    evaluator [is_spf_record_strong], the DMARC evaluator
    [is_dmarc_record_strong] and the [__main__] block that combines them.

    The program talks to two collaborators that are not part of it:
    [emailprotectionslib] (record lookup) and the five [output_*] narration
    functions.  Record lookup is a parameter of every definition (a
    [Resolver]); narration is an event appended to a trace.  Python
    exceptions and unbounded recursion are explicit outcomes. *)

From Stdlib Require Import String List Bool Arith Lia.
Import ListNotations.
Open Scope string_scope.

(** ** Effects: events, exceptions, outcomes *)

(** The five narration channels of [libs.PrettyOutput]. *)
Inductive channel : Type := Good | Bad | Info | Error | Indifferent.

(** Python exceptions the program can meet. [OtherException] stands for any
    other subclass of [Exception], named by its class. *)
Inductive exn : Type :=
| IndexError
| AttributeError
| OrgDomainException
| OtherException (name : string).

(** What an evaluation leaves behind: narration, record lookups and the
    traceback written by [logging.exception]. *)
Inductive event : Type :=
| Out (c : channel) (msg : string)
| FetchSpf (domain : string)
| FetchDmarc (domain : string)
| FetchOrgDmarc
| LogException (e : exn).

Inductive outcome (A : Type) : Type :=
| Ret (a : A)
| Raise (e : exn)
| OutOfFuel.
Arguments Ret {A} a.
Arguments Raise {A} e.
Arguments OutOfFuel {A}.

(** What a call into the library gives back. *)
Inductive reply (A : Type) : Type :=
| Returns (a : A)
| Raises (e : exn).
Arguments Returns {A} a.
Arguments Raises {A} e.

(** A computation is the list of events it emitted and how it ended. *)
Definition M (A : Type) : Type := (list event * outcome A)%type.

Definition ret {A} (a : A) : M A := ([], Ret a).

Definition bind {A B} (m : M A) (f : A -> M B) : M B :=
  match m with
  | (t, Ret a) => let (t', r) := f a in ((t ++ t')%list, r)
  | (t, Raise e) => (t, Raise e)
  | (t, OutOfFuel) => (t, OutOfFuel)
  end.

Definition emit (e : event) : M unit := ([e], Ret tt).
Definition raise {A} (e : exn) : M A := ([], Raise e).
Definition out_of_fuel {A} : M A := ([], OutOfFuel).

(** [try m except handler]: an exception of [m] is handed to [handler];
    the events emitted before it stay. *)
Definition try_except {A} (m : M A) (handler : exn -> M A) : M A :=
  match m with
  | (t, Raise e) => let (t', r) := handler e in ((t ++ t')%list, r)
  | other => other
  end.

Definition events {A} (m : M A) : list event := fst m.
Definition result {A} (m : M A) : outcome A := snd m.

Notation "x <- c1 ;; c2" := (bind c1 (fun x => c2))
  (at level 61, c1 at next level, right associativity).
Notation "c1 ;; c2" := (bind c1 (fun _ => c2))
  (at level 61, right associativity).

(** Python truthiness of a value that is [None] or a string. *)
Definition truthy (o : option string) : bool :=
  match o with
  | Some s => negb (s =? "")
  | None => false
  end.

(** [str(x)] and [{x}] in an f-string for such a value. *)
Definition str (o : option string) : string :=
  match o with
  | Some s => s
  | None => "None"
  end.

(** [x == "lit"] for such a value. *)
Definition eqs (o : option string) (lit : string) : bool :=
  match o with
  | Some s => s =? lit
  | None => false
  end.

(** ** The narration collaborator *)

(** Modelled from the spec: [libs/PrettyOutput.py] is not among the sources.
    Each of its five functions narrates on its own channel and neither
    changes control flow nor returns a value that is used. *)
Definition output_good (msg : string) : M unit := emit (Out Good msg).
Definition output_bad (msg : string) : M unit := emit (Out Bad msg).
Definition output_info (msg : string) : M unit := emit (Out Info msg).
Definition output_error (msg : string) : M unit := emit (Out Error msg).
Definition output_indifferent (msg : string) : M unit :=
  emit (Out Indifferent msg).

(** ** The record-lookup collaborator *)

Module spflib.
(** What [checker.py] reads of an [emailprotectionslib.spf.SpfRecord]. *)
Record SpfRecord : Type := {
  record : option string;
  all_string : option string;
  get_redirect_domain : option string;
  get_include_domains : list string;
  _is_redirect_mechanism_strong : bool;
  _are_include_mechanisms_strong : bool;
  (* the text an f-string gives for the bound method itself *)
  get_redirect_domain_repr : string
}.
End spflib.

Module dmarclib.
(** What [checker.py] reads of an [emailprotectionslib.dmarc.DmarcRecord].
    [get_org_domain] is a call and may raise. *)
Record DmarcRecord : Type := {
  record : option string;
  policy : option string;
  subdomain_policy : option string;
  pct : option string;
  rua : option string;
  ruf : option string;
  get_org_domain : reply (option string)
}.
End dmarclib.

(** The library as the program sees it: [from_domain] gives a record
    object or [None]; [get_org_record] gives the organizational record,
    [None], or raises. *)
Record Resolver : Type := {
  spf_from_domain : string -> option spflib.SpfRecord;
  dmarc_from_domain : string -> option dmarclib.DmarcRecord;
  get_org_record : dmarclib.DmarcRecord -> reply (option dmarclib.DmarcRecord)
}.

(** A library call that returns or raises, as a computation. *)
Definition call {A} (o : reply A) : M A :=
  match o with
  | Returns a => ret a
  | Raises e => raise e
  end.

(** ** The SPF evaluator *)

Section Spf.
Variable lib : Resolver.

(** The helpers below call [is_spf_record_strong] back; they take it as
    [self], and the evaluator ties the knot. *)
Section OpenRecursion.
Variable self : string -> M bool.

Definition check_spf_redirect_mechanisms (spf_record : spflib.SpfRecord)
  : M bool :=
  let redirect_domain := spflib.get_redirect_domain spf_record in
  if truthy redirect_domain then
    output_info ("Processing an SPF redirect domain: " ++ str redirect_domain) ;;
    self (str redirect_domain)
  else ret false.

(** The [for] loop of [check_spf_include_mechanisms]. *)
Fixpoint check_spf_include_loop (include_domain_list : list string)
  : M bool :=
  match include_domain_list with
  | [] => ret false
  | include_domain :: rest =>
      output_info ("Processing an SPF include domain: " ++ include_domain) ;;
      strong_all_string <- self include_domain ;;
      if strong_all_string then ret true
      else check_spf_include_loop rest
  end.

Definition check_spf_include_mechanisms (spf_record : spflib.SpfRecord)
  : M bool :=
  check_spf_include_loop (spflib.get_include_domains spf_record).
End OpenRecursion.

Definition is_spf_redirect_record_strong (spf_record : spflib.SpfRecord)
  : M bool :=
  output_info ("Checking SPF redirect domain: "
               ++ spflib.get_redirect_domain_repr spf_record) ;;
  let redirect_strong := spflib._is_redirect_mechanism_strong spf_record in
  (if redirect_strong then output_bad "Redirect mechanism is strong."
   else output_indifferent "Redirect mechanism is not strong.") ;;
  ret redirect_strong.

Definition are_spf_include_mechanisms_strong (spf_record : spflib.SpfRecord)
  : M bool :=
  output_info "Checking SPF include mechanisms" ;;
  let include_strong := spflib._are_include_mechanisms_strong spf_record in
  (if include_strong then output_bad "Include mechanisms include a strong record"
   else output_indifferent "Include mechanisms are not strong") ;;
  ret include_strong.

Definition check_spf_include_redirect (spf_record : spflib.SpfRecord)
  : M bool :=
  other_records_strong <-
    (if truthy (spflib.get_redirect_domain spf_record)
     then is_spf_redirect_record_strong spf_record
     else ret false) ;;
  if negb other_records_strong
  then are_spf_include_mechanisms_strong spf_record
  else ret other_records_strong.

(** The test of line 82. *)
Definition strict_all (all_string : option string) : bool :=
  eqs all_string "~all" || eqs all_string "-all".

Definition check_spf_all_string (spf_record : spflib.SpfRecord) : M bool :=
  let all_string := spflib.all_string spf_record in
  strong_spf_all_string <-
    (if truthy all_string then
       if strict_all all_string then
         output_indifferent ("SPF record contains an All item: " ++ str all_string) ;;
         ret true
       else
         output_good ("SPF record All item is too weak: " ++ str all_string) ;;
         ret false
     else
       output_good "SPF record has no All string" ;;
       ret false) ;;
  if negb strong_spf_all_string
  then check_spf_include_redirect spf_record
  else ret strong_spf_all_string.

(** [spf_record and spf_record.record]. *)
Definition spf_found (o : option spflib.SpfRecord) : bool :=
  match o with
  | Some r => truthy (spflib.record r)
  | None => false
  end.

(** [fuel] bounds the depth of the calls of [is_spf_record_strong] to
    itself; Python has no bound of the program's own. *)
Fixpoint is_spf_record_strong (fuel : nat) (domain : string) : M bool :=
  match fuel with
  | O => out_of_fuel
  | S fuel' =>
      emit (FetchSpf domain) ;;
      match spf_from_domain lib domain with
      | Some spf_record =>
          if truthy (spflib.record spf_record) then
            output_info "Found SPF record:" ;;
            output_info (str (spflib.record spf_record)) ;;
            strong_all_string <- check_spf_all_string spf_record ;;
            if negb strong_all_string then
              redirect_strength <-
                check_spf_redirect_mechanisms (is_spf_record_strong fuel') spf_record ;;
              include_strength <-
                check_spf_include_mechanisms (is_spf_record_strong fuel') spf_record ;;
              if redirect_strength || include_strength
              then ret true else ret false
            else ret true
          else
            output_good (domain ++ " has no SPF record!") ;;
            ret false
      | None =>
          output_good (domain ++ " has no SPF record!") ;;
          ret false
      end
  end.
End Spf.

(** ** The DMARC evaluator *)

Section Dmarc.
Variable lib : Resolver.

(** [dmarc and dmarc.record]. *)
Definition dmarc_found (o : option dmarclib.DmarcRecord) : bool :=
  match o with
  | Some r => truthy (dmarclib.record r)
  | None => false
  end.

Definition get_dmarc_record (domain : string)
  : M (option dmarclib.DmarcRecord) :=
  emit (FetchDmarc domain) ;;
  let dmarc := dmarc_from_domain lib domain in
  (if dmarc_found dmarc then
     output_info "Found DMARC record:" ;;
     output_info (str (match dmarc with
                       | Some r => dmarclib.record r
                       | None => None
                       end))
   else ret tt) ;;
  ret dmarc.

Definition check_dmarc_extras (dmarc_record : dmarclib.DmarcRecord) : M unit :=
  let pct := dmarclib.pct dmarc_record in
  let rua := dmarclib.rua dmarc_record in
  let ruf := dmarclib.ruf dmarc_record in
  (if truthy pct && negb (eqs pct "100") then
     output_indifferent
       ("DMARC pct is set to " ++ str pct ++ "% - might be possible")
   else ret tt) ;;
  (if truthy rua then
     output_indifferent ("Aggregate reports will be sent: " ++ str rua)
   else ret tt) ;;
  (if truthy ruf then
     output_indifferent ("Forensics reports will be sent: " ++ str ruf)
   else ret tt).

(** The test of line 157. *)
Definition strict_policy (policy : option string) : bool :=
  eqs policy "reject" || eqs policy "quarantine".

Definition check_dmarc_policy (dmarc_record : dmarclib.DmarcRecord) : M bool :=
  let policy := dmarclib.policy dmarc_record in
  if truthy policy then
    if strict_policy policy then
      output_bad ("DMARC policy set to " ++ str policy) ;;
      ret true
    else
      output_good ("DMARC policy set to " ++ str policy) ;;
      ret false
  else
    output_good "DMARC record has no Policy" ;;
    ret false.

(** The body of the [try] of [check_dmarc_org_policy]. *)
Definition check_dmarc_org_policy_body (base_record : dmarclib.DmarcRecord)
  : M bool :=
  emit FetchOrgDmarc ;;
  org_record <- call (get_org_record lib base_record) ;;
  match org_record with
  | Some org =>
      if truthy (dmarclib.record org) then
        output_info "Found organizational DMARC record:" ;;
        output_info (str (dmarclib.record org)) ;;
        let subdomain_policy := dmarclib.subdomain_policy org in
        if truthy subdomain_policy then
          if eqs subdomain_policy "none" then
            output_good ("Organizational subdomain policy set to "
                         ++ str subdomain_policy) ;;
            ret false
          else if eqs subdomain_policy "quarantine"
                  || eqs subdomain_policy "reject" then
            output_bad ("Organizational subdomain policy explicitly set to "
                        ++ str subdomain_policy) ;;
            ret true
          else ret false
        else
          output_info
            "No explicit organizational subdomain policy. Defaulting to organizational policy..." ;;
          check_dmarc_policy org
      else
        output_good "No organizational DMARC record" ;;
        ret false
  | None =>
      output_good "No organizational DMARC record" ;;
      ret false
  end.

(** [policy_strong] is still [False] whenever a handler runs: it is
    assigned last on every path of the body. *)
Definition check_dmarc_org_policy (base_record : dmarclib.DmarcRecord)
  : M bool :=
  try_except (check_dmarc_org_policy_body base_record)
    (fun e =>
       match e with
       | OrgDomainException =>
           output_good "No organizational DMARC record" ;;
           ret false
       | _ =>
           emit (LogException e) ;;
           ret false
       end).

Definition is_dmarc_record_strong (domain : string) : M bool :=
  dmarc <- get_dmarc_record domain ;;
  match dmarc with
  | Some d =>
      if truthy (dmarclib.record d) then
        dmarc_record_strong <- check_dmarc_policy d ;;
        check_dmarc_extras d ;;
        ret dmarc_record_strong
      else
        org_domain <- call (dmarclib.get_org_domain d) ;;
        if truthy org_domain then
          output_info
            "No DMARC record found. Looking for organizational record..." ;;
          check_dmarc_org_policy d
        else
          output_good (domain ++ " has no DMARC record!") ;;
          ret false
  | None =>
      (* [dmarc.get_org_domain] on [None] *)
      raise AttributeError
  end.
End Dmarc.

(** ** The orchestrator *)

Section Main.
Variable lib : Resolver.

(** The [if] of lines 235 to 238; the value is the verdict it narrates:
    [true] when spoofing is possible.  Python's [and] evaluates its right
    operand only when the left one is true. *)
Definition evaluate (fuel : nat) (domain : string) : M bool :=
  spf_strong <- is_spf_record_strong lib fuel domain ;;
  both_strong <-
    (if spf_strong then is_dmarc_record_strong lib domain else ret false) ;;
  if both_strong then
    output_bad ("Spoofing not possible for " ++ domain) ;;
    ret false
  else
    output_good ("Spoofing possible for " ++ domain ++ "!") ;;
    ret true.

(** The [__main__] block on [sys.argv].  The handler reads [sys.argv[0]]:
    on an empty [argv] it raises an [IndexError] of its own. *)
Definition main (fuel : nat) (argv : list string) : M unit :=
  try_except
    (domain <- match nth_error argv 1 with
               | Some d => ret d
               | None => raise IndexError
               end ;;
     evaluate fuel domain ;;
     ret tt)
    (fun e =>
       match e with
       | IndexError =>
           match nth_error argv 0 with
           | Some prog => output_error ("Usage: " ++ prog ++ " [DOMAIN]")
           | None => raise IndexError
           end
       | _ => raise e
       end).
End Main.

(** ** Vocabulary of the statements *)

(** What the library's own check of the redirect and include mechanisms
    contributes to [check_spf_include_redirect]. *)
Definition mechanism_level_strong (r : spflib.SpfRecord) : bool :=
  (truthy (spflib.get_redirect_domain r) && spflib._is_redirect_mechanism_strong r)
  || spflib._are_include_mechanisms_strong r.

(** The domains looked up for SPF, in order. *)
Fixpoint spf_lookups (t : list event) : list string :=
  match t with
  | [] => []
  | FetchSpf d :: t' => d :: spf_lookups t'
  | _ :: t' => spf_lookups t'
  end.

(** The domains looked up for DMARC, in order. *)
Fixpoint dmarc_lookups (t : list event) : list string :=
  match t with
  | [] => []
  | FetchDmarc d :: t' => d :: dmarc_lookups t'
  | _ :: t' => dmarc_lookups t'
  end.

(** The include domains the loop evaluates when [strong] tells which
    domains are SPF-strong: all up to the first strong one, and it. *)
Fixpoint evaluated_includes (strong : string -> bool) (l : list string)
  : list string :=
  match l with
  | [] => []
  | i :: rest => i :: (if strong i then [] else evaluated_includes strong rest)
  end.

(** The value of the [try] body when the organizational record is there. *)
Definition org_verdict (org : dmarclib.DmarcRecord) : bool :=
  let sp := dmarclib.subdomain_policy org in
  if truthy sp then
    if eqs sp "none" then false
    else eqs sp "quarantine" || eqs sp "reject"
  else strict_policy (dmarclib.policy org).

(** The record [r] with its [all_string] replaced. *)
Definition with_all_string (q : option string) (r : spflib.SpfRecord)
  : spflib.SpfRecord :=
  {| spflib.record := spflib.record r;
     spflib.all_string := q;
     spflib.get_redirect_domain := spflib.get_redirect_domain r;
     spflib.get_include_domains := spflib.get_include_domains r;
     spflib._is_redirect_mechanism_strong := spflib._is_redirect_mechanism_strong r;
     spflib._are_include_mechanisms_strong := spflib._are_include_mechanisms_strong r;
     spflib.get_redirect_domain_repr := spflib.get_redirect_domain_repr r |}.

(** The resolver [lib] with the SPF record of [domain] replaced. *)
Definition with_spf_record (domain : string) (r : spflib.SpfRecord)
           (lib : Resolver) : Resolver :=
  {| spf_from_domain := fun d =>
       if d =? domain then Some r else spf_from_domain lib d;
     dmarc_from_domain := dmarc_from_domain lib;
     get_org_record := get_org_record lib |}.

(** [is_spf_record_strong(domain)] returns [b]. *)
Definition spf_returns (lib : Resolver) (domain : string) (b : bool) : Prop :=
  exists fuel, result (is_spf_record_strong lib fuel domain) = Ret b.

(** The event with which the orchestrator narrates its verdict. *)
Definition verdict_event (domain : string) (spoofable : bool) : event :=
  if spoofable then Out Good ("Spoofing possible for " ++ domain ++ "!")
  else Out Bad ("Spoofing not possible for " ++ domain).

(** The ways in which finding the organizational record of [d] fails and
    the code has a path for it: no organizational domain, an exception of
    [get_org_record], no organizational record. *)
Definition org_resolution_fails (lib : Resolver) (d : dmarclib.DmarcRecord)
  : Prop :=
  exists org_domain,
    dmarclib.get_org_domain d = Returns org_domain
    /\ (truthy org_domain = false
        \/ (exists e, get_org_record lib d = Raises e)
        \/ get_org_record lib d = Returns None
        \/ (exists org, get_org_record lib d = Returns (Some org)
                        /\ truthy (dmarclib.record org) = false)).

(** ** Example resolvers *)

Module Scenario.
Definition spf (text : string) (all : option string)
           (redirect : option string) (includes : list string)
           (redirect_flag include_flag : bool) : spflib.SpfRecord :=
  {| spflib.record := Some text;
     spflib.all_string := all;
     spflib.get_redirect_domain := redirect;
     spflib.get_include_domains := includes;
     spflib._is_redirect_mechanism_strong := redirect_flag;
     spflib._are_include_mechanisms_strong := include_flag;
     spflib.get_redirect_domain_repr :=
       "<bound method SpfRecord.get_redirect_domain>" |}.

Definition dmarc (text policy sp : option string)
           (org_domain : reply (option string)) : dmarclib.DmarcRecord :=
  {| dmarclib.record := text;
     dmarclib.policy := policy;
     dmarclib.subdomain_policy := sp;
     dmarclib.pct := None;
     dmarclib.rua := None;
     dmarclib.ruf := None;
     dmarclib.get_org_domain := org_domain |}.

(** What the library gives for a domain that publishes no DMARC text: an
    object whose fields are all [None]. *)
Definition no_dmarc_text (org_domain : reply (option string))
  : dmarclib.DmarcRecord :=
  dmarc None None None org_domain.

(** No domain publishes anything; every lookup gives [None]. *)
Definition nothing : Resolver :=
  {| spf_from_domain := fun _ => None;
     dmarc_from_domain := fun _ => None;
     get_org_record := fun _ => Returns None |}.

Definition hardfail : spflib.SpfRecord :=
  spf "v=spf1 -all" (Some "-all") None [] false false.

Definition softfail : spflib.SpfRecord :=
  spf "v=spf1 ~all" (Some "~all") None [] false false.

(** [a.example] has no [all], redirects to [b.example] and includes
    [c.example]; [b.example] has no SPF record; [c.example] is [-all].
    [flag] is what the library's own check of the include mechanisms of
    [a.example] says. *)
Definition redirect_and_include (flag : bool) : Resolver :=
  {| spf_from_domain := fun d =>
       if d =? "a.example" then
         Some (spf "v=spf1 include:c.example redirect=b.example" None
                   (Some "b.example") ["c.example"] false flag)
       else if d =? "c.example" then Some hardfail
       else None;
     dmarc_from_domain := fun _ => None;
     get_org_record := fun _ => Returns None |}.

(** [a.example] is [?all] and redirects to [b.example], which is [-all]. *)
Definition redirect_to_strong : Resolver :=
  {| spf_from_domain := fun d =>
       if d =? "a.example" then
         Some (spf "v=spf1 redirect=b.example ?all" (Some "?all")
                   (Some "b.example") [] false false)
       else if d =? "b.example" then Some hardfail
       else None;
     dmarc_from_domain := fun _ => None;
     get_org_record := fun _ => Returns None |}.
End Scenario.

Module Dns.
Import Scenario.

(** [example.com] publishes neither SPF nor DMARC, and has no
    organizational domain above it. *)
Definition unprotected : Resolver :=
  {| spf_from_domain := fun _ => None;
     dmarc_from_domain := fun _ => Some (no_dmarc_text (Returns None));
     get_org_record := fun _ => Raises OrgDomainException |}.

(** [strong.example] is [-all] and [p=reject]. *)
Definition strong : Resolver :=
  {| spf_from_domain := fun _ => Some hardfail;
     dmarc_from_domain := fun _ =>
       Some (dmarc (Some "v=DMARC1; p=reject") (Some "reject") None
                   (Returns (Some "strong.example")));
     get_org_record := fun _ => Raises OrgDomainException |}.

(** [strong.example] is [-all]; the DMARC lookup gives no object. *)
Definition no_dmarc_object : Resolver :=
  {| spf_from_domain := fun _ => Some hardfail;
     dmarc_from_domain := fun _ => None;
     get_org_record := fun _ => Returns None |}.

(** [strong.example] is [-all] and publishes no DMARC text; finding its
    organizational domain fails with an error of the resolver. *)
Definition org_domain_raises : Resolver :=
  {| spf_from_domain := fun _ => Some hardfail;
     dmarc_from_domain := fun _ =>
       Some (no_dmarc_text (Raises (OtherException "ResolverError")));
     get_org_record := fun _ => Returns None |}.

(** [strong.example] is [-all], publishes no DMARC text and is its own
    organizational domain: [get_org_record] raises. *)
Definition org_record_raises (e : exn) : Resolver :=
  {| spf_from_domain := fun _ => Some hardfail;
     dmarc_from_domain := fun _ =>
       Some (no_dmarc_text (Returns (Some "strong.example")));
     get_org_record := fun _ => Raises e |}.

(** [no-dmarc.example.com] publishes no DMARC text; its organizational
    domain [example.com] publishes [org]. *)
Definition subdomain_of (org : dmarclib.DmarcRecord) : Resolver :=
  {| spf_from_domain := fun _ => Some hardfail;
     dmarc_from_domain := fun _ =>
       Some (no_dmarc_text (Returns (Some "example.com")));
     get_org_record := fun _ => Returns (Some org) |}.

Definition none_sp_reject : dmarclib.DmarcRecord :=
  dmarc (Some "v=DMARC1; p=none; sp=reject") (Some "none") (Some "reject")
        (Returns (Some "example.com")).

Definition reject_sp_none : dmarclib.DmarcRecord :=
  dmarc (Some "v=DMARC1; p=reject; sp=none") (Some "reject") (Some "none")
        (Returns (Some "example.com")).

Definition quarantine_no_sp : dmarclib.DmarcRecord :=
  dmarc (Some "v=DMARC1; p=quarantine") (Some "quarantine") None
        (Returns (Some "example.com")).
End Dns.

(** ** The helper nothing calls *)

(** [get_dmarc_org_record], lines 131 to 136.  An object is truthy, so the
    narration runs whenever [get_org_record] gives one, with or without
    record text. *)
Definition get_dmarc_org_record (lib : Resolver)
           (base_record : dmarclib.DmarcRecord)
  : M (option dmarclib.DmarcRecord) :=
  emit FetchOrgDmarc ;;
  org_record <- call (get_org_record lib base_record) ;;
  match org_record with
  | Some org =>
      output_info "Found DMARC Organizational record:" ;;
      output_info (str (dmarclib.record org))
  | None => ret tt
  end ;;
  ret org_record.

(** ** Vocabulary of the further statements *)

(** A domain from which SPF strength can come: its record is there and
    either its [all] is strict or the library's own mechanism check says
    strong. *)
Definition strong_source (lib : Resolver) (d : string) : bool :=
  match spf_from_domain lib d with
  | Some r =>
      truthy (spflib.record r)
      && (strict_all (spflib.all_string r) || mechanism_level_strong r)
  | None => false
  end.

(** The usage line of the [except IndexError] handler, for an [argv] that
    holds at least the program name. *)
Definition usage (argv : list string) : event :=
  Out Error ("Usage: " ++ nth 0 argv "" ++ " [DOMAIN]").

(** How often the organizational record is asked for. *)
Fixpoint org_fetches (t : list event) : nat :=
  match t with
  | [] => 0
  | FetchOrgDmarc :: t' => S (org_fetches t')
  | _ :: t' => org_fetches t'
  end.

(** The record of [domain] sends the evaluation back to [domain]: through
    its redirect, or, without a redirect, through its first include. *)
Definition refers_to_itself (domain : string) (r : spflib.SpfRecord) : Prop :=
  (spflib.get_redirect_domain r = Some domain /\ domain <> "")
  \/ (truthy (spflib.get_redirect_domain r) = false
      /\ exists rest, spflib.get_include_domains r = domain :: rest).

Module Cases.
Import Scenario.

(** [loop.example] has no [all] and redirects to itself. *)
Definition self_redirect : Resolver :=
  {| spf_from_domain := fun _ =>
       Some (spf "v=spf1 redirect=loop.example" None
                 (Some "loop.example") [] false false);
     dmarc_from_domain := fun _ => None;
     get_org_record := fun _ => Returns None |}.

(** [strong.example] is [-all], publishes no DMARC text, and looking for
    its organizational domain raises [e]. *)
Definition org_domain_raising (e : exn) : Resolver :=
  {| spf_from_domain := fun _ => Some hardfail;
     dmarc_from_domain := fun _ => Some (no_dmarc_text (Raises e));
     get_org_record := fun _ => Returns None |}.

(** An organizational record with [p=reject] and a subdomain policy that
    is none of the three known ones. *)
Definition reject_sp_unknown : dmarclib.DmarcRecord :=
  dmarc (Some "v=DMARC1; p=reject; sp=discard") (Some "reject")
        (Some "discard") (Returns (Some "example.com")).

(** [a.example] is [?all] and includes [weak.example] (no record) and
    [c.example] ([-all]). *)
Definition include_chain : Resolver :=
  {| spf_from_domain := fun d =>
       if d =? "a.example" then
         Some (spf "v=spf1 include:weak.example include:c.example ?all"
                   (Some "?all") None ["weak.example"; "c.example"] false false)
       else if d =? "c.example" then Some hardfail
       else None;
     dmarc_from_domain := fun _ => None;
     get_org_record := fun _ => Returns None |}.

(** [a.example] is [?all], redirects to [b.example] ([-all]) and includes
    [loop.example], whose record is [?all] and includes [loop.example]. *)
Definition strong_redirect_looping_include : Resolver :=
  {| spf_from_domain := fun d =>
       if d =? "a.example" then
         Some (spf "v=spf1 include:loop.example redirect=b.example ?all"
                   (Some "?all") (Some "b.example") ["loop.example"] false false)
       else if d =? "b.example" then Some hardfail
       else if d =? "loop.example" then
         Some (spf "v=spf1 include:loop.example ?all"
                   (Some "?all") None ["loop.example"] false false)
       else None;
     dmarc_from_domain := fun _ => None;
     get_org_record := fun _ => Returns None |}.

(** [a.example] is [?all] and includes only [weak.example] (no record). *)
Definition weak_chain : Resolver :=
  {| spf_from_domain := fun d =>
       if d =? "a.example" then
         Some (spf "v=spf1 include:weak.example ?all"
                   (Some "?all") None ["weak.example"] false false)
       else None;
     dmarc_from_domain := fun _ => None;
     get_org_record := fun _ => Returns None |}.
End Cases.

(** ** Laws of the effect layer *)

Lemma result_bind {A B} (m : M A) (f : A -> M B) :
  result (bind m f) =
  match result m with
  | Ret a => result (f a)
  | Raise e => Raise e
  | OutOfFuel => OutOfFuel
  end.
Proof.
  destruct m as [t [a|e|]]; simpl; trivial.
  destruct (f a); reflexivity.
Qed.

Lemma events_bind {A B} (m : M A) (f : A -> M B) :
  events (bind m f) =
  (events m ++ match result m with
               | Ret a => events (f a)
               | _ => []
               end)%list.
Proof.
  destruct m as [t [a|e|]]; simpl; rewrite ?app_nil_r; trivial.
  destruct (f a); reflexivity.
Qed.

Lemma result_try_except {A} (m : M A) (h : exn -> M A) :
  result (try_except m h) =
  match result m with
  | Raise e => result (h e)
  | other => other
  end.
Proof.
  destruct m as [t [a|e|]]; simpl; trivial.
  destruct (h e); reflexivity.
Qed.

Lemma eqs_true (o : option string) (lit : string) :
  eqs o lit = true <-> o = Some lit.
Proof.
  destruct o as [s|]; simpl.
  - rewrite String.eqb_eq. split; congruence.
  - split; discriminate.
Qed.

(** ** Facts about the SPF evaluator *)

Lemma spf_lookups_app (t1 t2 : list event) :
  spf_lookups (t1 ++ t2) = (spf_lookups t1 ++ spf_lookups t2)%list.
Proof.
  induction t1 as [|e t1 IH]; simpl; trivial.
  destruct e; simpl; rewrite IH; reflexivity.
Qed.

Lemma dmarc_lookups_app (t1 t2 : list event) :
  dmarc_lookups (t1 ++ t2) = (dmarc_lookups t1 ++ dmarc_lookups t2)%list.
Proof.
  induction t1 as [|e t1 IH]; simpl; trivial.
  destruct e; simpl; rewrite IH; reflexivity.
Qed.

Lemma strict_all_truthy (o : option string) :
  strict_all o = true -> truthy o = true.
Proof.
  unfold strict_all. intros H. apply orb_true_iff in H.
  destruct H as [H|H]; apply eqs_true in H; subst; reflexivity.
Qed.

Lemma check_spf_include_redirect_result (r : spflib.SpfRecord) :
  result (check_spf_include_redirect r) = Ret (mechanism_level_strong r).
Proof.
  unfold check_spf_include_redirect, mechanism_level_strong,
    is_spf_redirect_record_strong, are_spf_include_mechanisms_strong.
  destruct (truthy (spflib.get_redirect_domain r));
    destruct (spflib._is_redirect_mechanism_strong r);
    destruct (spflib._are_include_mechanisms_strong r); reflexivity.
Qed.

Lemma check_spf_include_redirect_lookups (r : spflib.SpfRecord) :
  spf_lookups (events (check_spf_include_redirect r)) = [].
Proof.
  unfold check_spf_include_redirect,
    is_spf_redirect_record_strong, are_spf_include_mechanisms_strong.
  destruct (truthy (spflib.get_redirect_domain r));
    destruct (spflib._is_redirect_mechanism_strong r);
    destruct (spflib._are_include_mechanisms_strong r); reflexivity.
Qed.

Lemma check_spf_all_string_result (r : spflib.SpfRecord) :
  result (check_spf_all_string r) =
  Ret (strict_all (spflib.all_string r) || mechanism_level_strong r).
Proof.
  unfold check_spf_all_string.
  destruct (strict_all (spflib.all_string r)) eqn:Hs.
  - rewrite (strict_all_truthy _ Hs). reflexivity.
  - rewrite result_bind.
    destruct (truthy (spflib.all_string r)); simpl;
      apply check_spf_include_redirect_result.
Qed.

Lemma check_spf_all_string_lookups (r : spflib.SpfRecord) :
  spf_lookups (events (check_spf_all_string r)) = [].
Proof.
  unfold check_spf_all_string.
  rewrite events_bind, spf_lookups_app.
  destruct (truthy (spflib.all_string r));
    [destruct (strict_all (spflib.all_string r))|]; simpl; trivial;
    apply check_spf_include_redirect_lookups.
Qed.

Arguments bind : simpl never.
Arguments try_except : simpl never.

Section SpfFacts.
Variable lib : Resolver.

Lemma is_spf_record_strong_absent (fuel : nat) (domain : string) :
  spf_found (spf_from_domain lib domain) = false ->
  is_spf_record_strong lib (S fuel) domain =
  ([FetchSpf domain; Out Good (domain ++ " has no SPF record!")], Ret false).
Proof.
  unfold spf_found. simpl.
  destruct (spf_from_domain lib domain) as [r|]; [|reflexivity].
  intros ->. reflexivity.
Qed.

Lemma is_spf_record_strong_found_result
      (fuel : nat) (domain : string) (r : spflib.SpfRecord) :
  spf_from_domain lib domain = Some r ->
  truthy (spflib.record r) = true ->
  result (is_spf_record_strong lib (S fuel) domain) =
  if strict_all (spflib.all_string r) || mechanism_level_strong r then Ret true
  else
    match result (check_spf_redirect_mechanisms (is_spf_record_strong lib fuel) r) with
    | Ret rs =>
        match result (check_spf_include_mechanisms (is_spf_record_strong lib fuel) r) with
        | Ret inc => Ret (rs || inc)
        | Raise e => Raise e
        | OutOfFuel => OutOfFuel
        end
    | Raise e => Raise e
    | OutOfFuel => OutOfFuel
    end.
Proof.
  intros Hl Ht. simpl. rewrite Hl, Ht.
  repeat (rewrite result_bind; simpl).
  rewrite check_spf_all_string_result.
  destruct (strict_all (spflib.all_string r) || mechanism_level_strong r);
    simpl; trivial.
  rewrite result_bind.
  destruct (result (check_spf_redirect_mechanisms _ r)) as [rs|e|]; trivial.
  rewrite result_bind.
  destruct (result (check_spf_include_mechanisms _ r)) as [inc|e|]; trivial.
  destruct (rs || inc); reflexivity.
Qed.

Lemma is_spf_record_strong_found_lookups
      (fuel : nat) (domain : string) (r : spflib.SpfRecord) :
  spf_from_domain lib domain = Some r ->
  truthy (spflib.record r) = true ->
  spf_lookups (events (is_spf_record_strong lib (S fuel) domain)) =
  domain ::
  (if strict_all (spflib.all_string r) || mechanism_level_strong r then []
   else
     spf_lookups (events (check_spf_redirect_mechanisms
                            (is_spf_record_strong lib fuel) r))
     ++ match result (check_spf_redirect_mechanisms
                        (is_spf_record_strong lib fuel) r) with
        | Ret _ =>
            spf_lookups (events (check_spf_include_mechanisms
                                   (is_spf_record_strong lib fuel) r))
        | _ => []
        end)%list.
Proof.
  intros Hl Ht. simpl. rewrite Hl, Ht.
  repeat (rewrite events_bind, spf_lookups_app; simpl).
  rewrite check_spf_all_string_lookups, check_spf_all_string_result.
  simpl. f_equal.
  destruct (strict_all (spflib.all_string r) || mechanism_level_strong r);
    simpl; trivial.
  rewrite events_bind, spf_lookups_app. f_equal.
  destruct (result (check_spf_redirect_mechanisms _ r)) as [rs|e|]; trivial.
  rewrite events_bind, spf_lookups_app.
  destruct (result (check_spf_include_mechanisms _ r)) as [inc|e|];
    rewrite ?app_nil_r; trivial.
  destruct (rs || inc); simpl; rewrite app_nil_r; reflexivity.
Qed.
End SpfFacts.

(** ** Delegation: the redirect domain and the include loop *)

Section Delegation.
Variable self : string -> M bool.

Lemma check_spf_redirect_mechanisms_unset (r : spflib.SpfRecord) :
  truthy (spflib.get_redirect_domain r) = false ->
  check_spf_redirect_mechanisms self r = ([], Ret false).
Proof.
  unfold check_spf_redirect_mechanisms. intros ->. reflexivity.
Qed.

Lemma check_spf_redirect_mechanisms_set_result (r : spflib.SpfRecord) :
  truthy (spflib.get_redirect_domain r) = true ->
  result (check_spf_redirect_mechanisms self r) =
  result (self (str (spflib.get_redirect_domain r))).
Proof.
  unfold check_spf_redirect_mechanisms. intros ->.
  rewrite result_bind. simpl.
  destruct (result (self _)); reflexivity.
Qed.

Lemma check_spf_redirect_mechanisms_set_lookups (r : spflib.SpfRecord) :
  truthy (spflib.get_redirect_domain r) = true ->
  spf_lookups (events (check_spf_redirect_mechanisms self r)) =
  spf_lookups (events (self (str (spflib.get_redirect_domain r)))).
Proof.
  unfold check_spf_redirect_mechanisms. intros ->.
  rewrite events_bind, spf_lookups_app. reflexivity.
Qed.

Lemma check_spf_include_loop_oracle (strong : string -> bool) (l : list string) :
  Forall (fun i => result (self i) = Ret (strong i)) (evaluated_includes strong l) ->
  result (check_spf_include_loop self l) = Ret (existsb strong l)
  /\ spf_lookups (events (check_spf_include_loop self l)) =
     flat_map (fun i => spf_lookups (events (self i))) (evaluated_includes strong l).
Proof.
  induction l as [|i rest IH]; intros HF; simpl.
  - split; reflexivity.
  - simpl in HF. inversion HF as [|? ? Hi Hrest]; subst.
    rewrite !result_bind, !events_bind, !spf_lookups_app. simpl.
    rewrite spf_lookups_app, Hi.
    destruct (strong i); simpl.
    + rewrite !app_nil_r. split; reflexivity.
    + destruct (IH Hrest) as [IHr IHl]. rewrite IHr, IHl.
      split; reflexivity.
Qed.

(** Without any assumption on the domains after the first strong one:
    the loop stops there. *)
Lemma check_spf_include_loop_first_strong (pre post : list string) (x : string) :
  Forall (fun i => result (self i) = Ret false) pre ->
  result (self x) = Ret true ->
  result (check_spf_include_loop self (pre ++ x :: post)) = Ret true.
Proof.
  induction pre as [|i pre IH]; intros HF Hx; simpl.
  - rewrite !result_bind. simpl. rewrite Hx. reflexivity.
  - inversion HF as [|? ? Hi Hpre]; subst.
    rewrite !result_bind. simpl. rewrite Hi. simpl. auto.
Qed.

Lemma check_spf_include_loop_none_strong (l : list string) :
  Forall (fun i => result (self i) = Ret false) l ->
  result (check_spf_include_loop self l) = Ret false.
Proof.
  induction l as [|i l IH]; intros HF; simpl; trivial.
  inversion HF as [|? ? Hi Hl]; subst.
  rewrite !result_bind. simpl. rewrite Hi. simpl. auto.
Qed.
End Delegation.

(** ** More fuel never changes an evaluation that returned *)

Lemma bind_ext_on_ret {A B} (m : M A) (f f' : A -> M B) :
  (forall a, result m = Ret a -> f' a = f a) ->
  bind m f' = bind m f.
Proof.
  destruct m as [t [a|e|]]; unfold bind; simpl; intros H; trivial.
  rewrite (H a eq_refl). reflexivity.
Qed.

Section FuelStep.
Variables self self' : string -> M bool.
Hypothesis self_mono :
  forall d b, result (self d) = Ret b -> self' d = self d.

Lemma check_spf_redirect_mechanisms_mono (r : spflib.SpfRecord) (b : bool) :
  result (check_spf_redirect_mechanisms self r) = Ret b ->
  check_spf_redirect_mechanisms self' r = check_spf_redirect_mechanisms self r.
Proof.
  unfold check_spf_redirect_mechanisms.
  destruct (truthy (spflib.get_redirect_domain r)); trivial.
  rewrite result_bind. simpl. intros H.
  apply bind_ext_on_ret. intros _ _. eapply self_mono. eassumption.
Qed.

Lemma check_spf_include_loop_mono (l : list string) (b : bool) :
  result (check_spf_include_loop self l) = Ret b ->
  check_spf_include_loop self' l = check_spf_include_loop self l.
Proof.
  induction l as [|i l IH]; simpl; trivial.
  rewrite !result_bind. simpl. intros H.
  apply bind_ext_on_ret. intros _ _.
  destruct (result (self i)) as [s| |] eqn:Hs; try discriminate.
  rewrite (self_mono _ _ Hs).
  apply bind_ext_on_ret. intros s' Hs'.
  rewrite Hs in Hs'. injection Hs' as <-.
  destruct s; trivial. apply IH. exact H.
Qed.
End FuelStep.

Section Fuel.
Variable lib : Resolver.

Lemma is_spf_record_strong_S (fuel : nat) (domain : string) :
  is_spf_record_strong lib (S fuel) domain =
  (emit (FetchSpf domain) ;;
   match spf_from_domain lib domain with
   | Some spf_record =>
       if truthy (spflib.record spf_record) then
         output_info "Found SPF record:" ;;
         output_info (str (spflib.record spf_record)) ;;
         strong_all_string <- check_spf_all_string spf_record ;;
         if negb strong_all_string then
           redirect_strength <-
             check_spf_redirect_mechanisms (is_spf_record_strong lib fuel) spf_record ;;
           include_strength <-
             check_spf_include_mechanisms (is_spf_record_strong lib fuel) spf_record ;;
           if redirect_strength || include_strength
           then ret true else ret false
         else ret true
       else
         output_good (domain ++ " has no SPF record!") ;;
         ret false
   | None =>
       output_good (domain ++ " has no SPF record!") ;;
       ret false
   end).
Proof. reflexivity. Qed.

Lemma is_spf_record_strong_fuel_step (fuel : nat) :
  forall domain b,
    result (is_spf_record_strong lib fuel domain) = Ret b ->
    is_spf_record_strong lib (S fuel) domain = is_spf_record_strong lib fuel domain.
Proof.
  induction fuel as [|n IH]; intros domain b H; [discriminate|].
  destruct (spf_from_domain lib domain) as [r|] eqn:Hl;
    [destruct (truthy (spflib.record r)) eqn:Ht|].
  - rewrite (is_spf_record_strong_found_result lib n domain r Hl Ht) in H.
    pose proof (check_spf_all_string_result r) as Hall.
    rewrite (is_spf_record_strong_S (S n)), (is_spf_record_strong_S n).
    rewrite Hl, Ht.
    do 3 (apply bind_ext_on_ret; intros _ _).
    apply bind_ext_on_ret. intros s Hs.
    rewrite Hall in Hs. injection Hs as <-.
    destruct (strict_all (spflib.all_string r) || mechanism_level_strong r);
      cbn [negb]; trivial.
    destruct (result (check_spf_redirect_mechanisms _ r)) as [rs| |] eqn:Hr;
      try discriminate.
    destruct (result (check_spf_include_mechanisms _ r)) as [inc| |] eqn:Hi;
      try discriminate.
    rewrite (check_spf_redirect_mechanisms_mono _ _ IH r rs Hr).
    apply bind_ext_on_ret. intros rs' _.
    unfold check_spf_include_mechanisms in *.
    rewrite (check_spf_include_loop_mono _ _ IH _ inc Hi).
    reflexivity.
  - rewrite (is_spf_record_strong_S (S n)), (is_spf_record_strong_S n).
    rewrite Hl, Ht. reflexivity.
  - rewrite (is_spf_record_strong_S (S n)), (is_spf_record_strong_S n).
    rewrite Hl. reflexivity.
Qed.

Lemma is_spf_record_strong_fuel_mono (fuel extra : nat) (domain : string) (b : bool) :
  result (is_spf_record_strong lib fuel domain) = Ret b ->
  is_spf_record_strong lib (extra + fuel) domain = is_spf_record_strong lib fuel domain.
Proof.
  intros H. induction extra as [|k IH]; simpl plus; trivial.
  rewrite <- IH.
  apply is_spf_record_strong_fuel_step with (b := b).
  rewrite IH. exact H.
Qed.
End Fuel.

(** ** The SPF claims *)

(** C9: when the SPF lookup for a domain gives nothing (no record object, or
    an object without record text), [is_spf_record_strong] returns [False],
    after narrating that the domain has no SPF record. *)
Theorem C9_absent_spf_record_is_not_strong
        (lib : Resolver) (fuel : nat) (domain : string) :
  spf_found (spf_from_domain lib domain) = false ->
  is_spf_record_strong lib (S fuel) domain =
  ([FetchSpf domain; Out Good (domain ++ " has no SPF record!")], Ret false).
Proof.
  apply is_spf_record_strong_absent.
Qed.

Lemma C9_witness :
  spf_found (spf_from_domain Scenario.nothing "example.com") = false
  /\ is_spf_record_strong Scenario.nothing 1 "example.com" =
     ([FetchSpf "example.com"; Out Good "example.com has no SPF record!"],
      Ret false).
Proof.
  split; [reflexivity|].
  apply (C9_absent_spf_record_is_not_strong Scenario.nothing 0 "example.com").
  reflexivity.
Defined.

(** C4: a domain whose SPF record ends in [-all] or [~all] is SPF-strong,
    and no other domain is looked up to decide it.  With the same record but
    [+all], [?all] or no [all] at all, the qualifier gives no strength: when
    neither the library's mechanism check nor the redirect domain nor the
    include domains are strong, the result is [False]. *)
Theorem C4_strict_all_is_strong_on_its_own
        (lib lib' : Resolver) (fuel : nat) (domain : string)
        (r : spflib.SpfRecord) (q : option string) :
  spf_from_domain lib domain = Some r ->
  truthy (spflib.record r) = true ->
  spflib.all_string r = Some "-all" \/ spflib.all_string r = Some "~all" ->
  spf_from_domain lib' domain = Some (with_all_string q r) ->
  q = Some "+all" \/ q = Some "?all" \/ q = None ->
  (result (is_spf_record_strong lib (S fuel) domain) = Ret true
   /\ spf_lookups (events (is_spf_record_strong lib (S fuel) domain)) = [domain])
  /\ (mechanism_level_strong r = false ->
      result (check_spf_redirect_mechanisms
                (is_spf_record_strong lib' fuel) r) = Ret false ->
      result (check_spf_include_mechanisms
                (is_spf_record_strong lib' fuel) r) = Ret false ->
      result (is_spf_record_strong lib' (S fuel) domain) = Ret false).
Proof.
  intros Hl Ht Hall Hl' Hq. split.
  - assert (Hs : strict_all (spflib.all_string r) = true)
      by (destruct Hall as [-> | ->]; reflexivity).
    rewrite (is_spf_record_strong_found_result lib fuel domain r Hl Ht).
    rewrite (is_spf_record_strong_found_lookups lib fuel domain r Hl Ht).
    rewrite Hs. split; reflexivity.
  - intros Hm Hr Hi.
    rewrite (is_spf_record_strong_found_result lib' fuel domain _ Hl' Ht).
    assert (Hw : strict_all (spflib.all_string (with_all_string q r)) = false)
      by (destruct Hq as [-> | [-> | ->]]; reflexivity).
    rewrite Hw.
    change (mechanism_level_strong (with_all_string q r))
      with (mechanism_level_strong r).
    change (check_spf_redirect_mechanisms (is_spf_record_strong lib' fuel)
              (with_all_string q r))
      with (check_spf_redirect_mechanisms (is_spf_record_strong lib' fuel) r).
    change (check_spf_include_mechanisms (is_spf_record_strong lib' fuel)
              (with_all_string q r))
      with (check_spf_include_mechanisms (is_spf_record_strong lib' fuel) r).
    rewrite Hm, Hr, Hi. reflexivity.
Qed.

Lemma C4_witness :
  let lib := with_spf_record "strong.example" Scenario.hardfail Scenario.nothing in
  let lib' := with_spf_record "strong.example"
                (with_all_string (Some "+all") Scenario.hardfail) Scenario.nothing in
  result (is_spf_record_strong lib 1 "strong.example") = Ret true
  /\ spf_lookups (events (is_spf_record_strong lib 1 "strong.example"))
     = ["strong.example"]
  /\ result (is_spf_record_strong lib' 1 "strong.example") = Ret false.
Proof.
  intros lib lib'.
  destruct (C4_strict_all_is_strong_on_its_own
              lib lib' 0 "strong.example" Scenario.hardfail (Some "+all"))
    as [[Hstrong Hlook] Hweak];
    [reflexivity | reflexivity | left; reflexivity | reflexivity
     | left; reflexivity |].
  split; [exact Hstrong|]. split; [exact Hlook|].
  apply Hweak; reflexivity.
Defined.

(** C3, as the code has it: for a domain whose SPF record exists and whose
    [all] is neither [-all] nor [~all]: when the library's own check of the
    redirect and include mechanisms says strong, the result is [True] and
    no other domain is looked up.  Otherwise the redirect domain (when set)
    and then the include domains, in order and up to the first strong one,
    are evaluated, the include domains also when a redirect is set, and the
    result is [True] iff the redirect domain or one of the include domains
    is SPF-strong. *)
Theorem C3_weak_all_delegates_to_redirect_or_includes
        (lib : Resolver) (fuel : nat) (domain : string) (r : spflib.SpfRecord) :
  spf_from_domain lib domain = Some r ->
  truthy (spflib.record r) = true ->
  strict_all (spflib.all_string r) = false ->
  let redirect := spflib.get_redirect_domain r in
  let includes := spflib.get_include_domains r in
  let self := is_spf_record_strong lib fuel in
  (mechanism_level_strong r = true ->
   result (is_spf_record_strong lib (S fuel) domain) = Ret true
   /\ spf_lookups (events (is_spf_record_strong lib (S fuel) domain)) = [domain])
  /\ (mechanism_level_strong r = false ->
      forall strong : string -> bool,
        (truthy redirect = true ->
         result (self (str redirect)) = Ret (strong (str redirect))) ->
        Forall (fun i => result (self i) = Ret (strong i))
               (evaluated_includes strong includes) ->
        result (is_spf_record_strong lib (S fuel) domain) =
        Ret ((truthy redirect && strong (str redirect)) || existsb strong includes)
        /\ spf_lookups (events (is_spf_record_strong lib (S fuel) domain)) =
           (domain ::
            (if truthy redirect then spf_lookups (events (self (str redirect)))
             else [])
            ++ flat_map (fun i => spf_lookups (events (self i)))
                 (evaluated_includes strong includes))%list).
Proof.
  intros Hl Ht Hw redirect includes self.
  rewrite (is_spf_record_strong_found_result lib fuel domain r Hl Ht).
  rewrite (is_spf_record_strong_found_lookups lib fuel domain r Hl Ht).
  rewrite Hw. cbn [orb]. split.
  - intros ->. split; reflexivity.
  - intros -> strong Hred Hinc.
    destruct (check_spf_include_loop_oracle self strong includes Hinc)
      as [Hir Hil].
    unfold check_spf_include_mechanisms. fold includes self.
    rewrite Hir, Hil.
    destruct (truthy redirect) eqn:Htr.
    + rewrite (check_spf_redirect_mechanisms_set_result self r Htr).
      rewrite (check_spf_redirect_mechanisms_set_lookups self r Htr).
      fold redirect. rewrite (Hred eq_refl). split; reflexivity.
    + rewrite (check_spf_redirect_mechanisms_unset self r Htr).
      split; reflexivity.
Qed.

Lemma C3_witness :
  let lib := Scenario.redirect_and_include false in
  result (is_spf_record_strong lib 2 "a.example") = Ret true
  /\ spf_lookups (events (is_spf_record_strong lib 2 "a.example"))
     = ["a.example"; "b.example"; "c.example"].
Proof.
  intros lib.
  destruct (C3_weak_all_delegates_to_redirect_or_includes lib 1 "a.example"
              (Scenario.spf "v=spf1 include:c.example redirect=b.example" None
                 (Some "b.example") ["c.example"] false false))
    as [_ H]; [reflexivity | reflexivity | reflexivity |].
  apply (H eq_refl (fun d => d =? "c.example")).
  - intros _. reflexivity.
  - repeat constructor.
Defined.

(** C3 as stated fails: [a.example] has a weak record with a redirect to
    [b.example], which is not SPF-strong, yet [a.example] is SPF-strong,
    through its include domain [c.example], which is looked up although a
    redirect is set.  It also fails when the library's own check of the
    include mechanisms says strong: then nothing is evaluated and the result
    is [True]. *)
Lemma C3_counterexample :
  let lib := Scenario.redirect_and_include false in
  let lib' := Scenario.redirect_and_include true in
  (exists r, spf_from_domain lib "a.example" = Some r
             /\ spflib.get_redirect_domain r = Some "b.example"
             /\ result (check_spf_all_string r) = Ret false)
  /\ result (is_spf_record_strong lib 1 "b.example") = Ret false
  /\ result (is_spf_record_strong lib 2 "a.example") = Ret true
  /\ In (FetchSpf "c.example") (events (is_spf_record_strong lib 2 "a.example"))
  /\ result (is_spf_record_strong lib' 1 "b.example") = Ret false
  /\ result (is_spf_record_strong lib' 1 "a.example") = Ret true.
Proof.
  cbv zeta. split; [eexists; repeat split; reflexivity|].
  repeat split; try reflexivity.
  vm_compute. tauto.
Qed.

(** C8, as the code has it: when the SPF record of [A] names [B] as its
    redirect domain and [is_spf_record_strong(B)] returns [True], then
    [is_spf_record_strong(A)] returns [True], whatever the [all] of [A]
    is, provided the library's own check of the redirect mechanism says
    strong or the scan of the include domains of [A], which the code runs
    after the redirect, returns. *)
Theorem C8_redirect_strength_is_transitive
        (lib : Resolver) (A B : string) (r : spflib.SpfRecord) :
  spf_from_domain lib A = Some r ->
  truthy (spflib.record r) = true ->
  spflib.get_redirect_domain r = Some B ->
  B <> "" ->
  spf_returns lib B true ->
  (spflib._is_redirect_mechanism_strong r = true
   \/ exists fuel b,
        result (check_spf_include_mechanisms (is_spf_record_strong lib fuel) r)
        = Ret b) ->
  spf_returns lib A true.
Proof.
  intros Hl Ht Hred HB [n1 H1] Hscan.
  assert (Htr : truthy (spflib.get_redirect_domain r) = true).
  { rewrite Hred. simpl. apply negb_true_iff, String.eqb_neq, HB. }
  destruct Hscan as [Hflag | [n2 [b H2]]].
  - exists 1.
    rewrite (is_spf_record_strong_found_result lib _ A r Hl Ht).
    unfold mechanism_level_strong. rewrite Htr, Hflag.
    rewrite orb_true_r. reflexivity.
  - exists (S (n2 + n1)).
    rewrite (is_spf_record_strong_found_result lib _ A r Hl Ht).
    destruct (strict_all (spflib.all_string r) || mechanism_level_strong r);
      trivial.
    rewrite (check_spf_redirect_mechanisms_set_result _ r Htr), Hred.
    cbn [str].
    rewrite (is_spf_record_strong_fuel_mono lib n1 n2 B true H1), H1.
    unfold check_spf_include_mechanisms in *.
    rewrite (check_spf_include_loop_mono
               (is_spf_record_strong lib n2) (is_spf_record_strong lib (n2 + n1)))
      with (b := b); [rewrite H2; reflexivity | | exact H2].
    intros d b' Hd. rewrite Nat.add_comm.
    apply (is_spf_record_strong_fuel_mono lib n2 n1 d b' Hd).
Qed.

Lemma C8_witness : spf_returns Scenario.redirect_to_strong "a.example" true.
Proof.
  apply (C8_redirect_strength_is_transitive Scenario.redirect_to_strong
           "a.example" "b.example"
           (Scenario.spf "v=spf1 redirect=b.example ?all" (Some "?all")
              (Some "b.example") [] false false)).
  - reflexivity.
  - reflexivity.
  - reflexivity.
  - discriminate.
  - exists 1. reflexivity.
  - right. exists 0, false. reflexivity.
Defined.

(** A record that sends the evaluation back to its own domain: no depth
    of recursion is enough. *)
Lemma is_spf_record_strong_self_reference
        (lib : Resolver) (domain : string) (r : spflib.SpfRecord) :
  spf_from_domain lib domain = Some r ->
  truthy (spflib.record r) = true ->
  strict_all (spflib.all_string r) = false ->
  mechanism_level_strong r = false ->
  refers_to_itself domain r ->
  forall fuel,
    result (is_spf_record_strong lib fuel domain) = OutOfFuel
    /\ spf_lookups (events (is_spf_record_strong lib fuel domain))
       = repeat domain fuel.
Proof.
  intros Hl Ht Hw Hm Hself fuel.
  induction fuel as [|n [IHr IHl]]; [split; reflexivity|].
  rewrite (is_spf_record_strong_found_result lib n domain r Hl Ht).
  rewrite (is_spf_record_strong_found_lookups lib n domain r Hl Ht).
  rewrite Hw, Hm. cbn [orb repeat].
  destruct Hself as [[Hred Hne] | [Hnored [rest Hinc]]].
  - assert (Htr : truthy (spflib.get_redirect_domain r) = true).
    { rewrite Hred. simpl. apply negb_true_iff, String.eqb_neq, Hne. }
    rewrite (check_spf_redirect_mechanisms_set_result _ r Htr).
    rewrite (check_spf_redirect_mechanisms_set_lookups _ r Htr).
    rewrite Hred. cbn [str]. rewrite IHr, IHl, app_nil_r.
    split; reflexivity.
  - rewrite (check_spf_redirect_mechanisms_unset _ r Hnored).
    unfold check_spf_include_mechanisms. rewrite Hinc.
    cbn [check_spf_include_loop events result fst snd app].
    rewrite !result_bind, !events_bind, !spf_lookups_app. simpl.
    rewrite IHr. simpl. rewrite app_nil_r, IHl. split; reflexivity.
Qed.

(** C8 as stated fails: [a.example] redirects to [b.example], which is
    SPF-strong, but [a.example] also includes [loop.example], whose record
    includes itself.  The scan of the include domains runs after the
    redirect and never returns, so [is_spf_record_strong] of [a.example]
    returns nothing at any depth of recursion. *)
Lemma C8_counterexample :
  let lib := Cases.strong_redirect_looping_include in
  (exists r, spf_from_domain lib "a.example" = Some r
             /\ spflib.get_redirect_domain r = Some "b.example")
  /\ spf_returns lib "b.example" true
  /\ (forall fuel, result (is_spf_record_strong lib fuel "a.example") = OutOfFuel)
  /\ ~ spf_returns lib "a.example" true.
Proof.
  cbv zeta.
  assert (Hloop : forall fuel,
             result (is_spf_record_strong Cases.strong_redirect_looping_include
                       fuel "loop.example") = OutOfFuel).
  { intros fuel.
    apply (is_spf_record_strong_self_reference
             Cases.strong_redirect_looping_include "loop.example"
             (Scenario.spf "v=spf1 include:loop.example ?all"
                (Some "?all") None ["loop.example"] false false));
      try reflexivity.
    right. split; [reflexivity | exists []; reflexivity]. }
  assert (Ha : forall fuel,
             result (is_spf_record_strong Cases.strong_redirect_looping_include
                       fuel "a.example") = OutOfFuel).
  { assert (Hb : forall m,
               result (is_spf_record_strong Cases.strong_redirect_looping_include
                         (S m) "b.example") = Ret true)
      by (intros m; reflexivity).
    intros [|[|m]]; [reflexivity | reflexivity |].
    rewrite (is_spf_record_strong_found_result
               Cases.strong_redirect_looping_include (S m) "a.example"
               (Scenario.spf "v=spf1 include:loop.example redirect=b.example ?all"
                  (Some "?all") (Some "b.example") ["loop.example"] false false)
               eq_refl eq_refl).
    cbn [Scenario.spf spflib.all_string strict_all eqs String.eqb Ascii.eqb
         Bool.eqb orb mechanism_level_strong spflib.get_redirect_domain
         spflib._is_redirect_mechanism_strong
         spflib._are_include_mechanisms_strong truthy negb andb].
    rewrite (check_spf_redirect_mechanisms_set_result
               (is_spf_record_strong Cases.strong_redirect_looping_include (S m))
               (Scenario.spf "v=spf1 include:loop.example redirect=b.example ?all"
                  (Some "?all") (Some "b.example") ["loop.example"] false false)
               eq_refl).
    cbn [Scenario.spf spflib.get_redirect_domain str].
    rewrite Hb.
    unfold check_spf_include_mechanisms.
    cbn [Scenario.spf spflib.get_include_domains check_spf_include_loop].
    rewrite !result_bind, Hloop. reflexivity. }
  split; [eexists; split; reflexivity|].
  split; [exists 1; reflexivity|].
  split; [exact Ha|].
  intros [fuel H]. rewrite Ha in H. discriminate.
Qed.

(** ** Facts about the DMARC evaluator *)

Lemma strict_policy_truthy (o : option string) :
  strict_policy o = true -> truthy o = true.
Proof.
  unfold strict_policy. intros H. apply orb_true_iff in H.
  destruct H as [H|H]; apply eqs_true in H; subst; reflexivity.
Qed.

Lemma strict_policy_iff (o : option string) :
  strict_policy o = true <-> o = Some "quarantine" \/ o = Some "reject".
Proof.
  unfold strict_policy. rewrite orb_true_iff, !eqs_true. tauto.
Qed.

Section DmarcFacts.
Variable lib : Resolver.

Lemma check_dmarc_policy_result (d : dmarclib.DmarcRecord) :
  result (check_dmarc_policy d) = Ret (strict_policy (dmarclib.policy d)).
Proof.
  unfold check_dmarc_policy.
  destruct (strict_policy (dmarclib.policy d)) eqn:Hs.
  - rewrite (strict_policy_truthy _ Hs). reflexivity.
  - destruct (truthy (dmarclib.policy d)); reflexivity.
Qed.

Lemma check_dmarc_policy_lookups (d : dmarclib.DmarcRecord) :
  dmarc_lookups (events (check_dmarc_policy d)) = [].
Proof.
  unfold check_dmarc_policy.
  destruct (truthy (dmarclib.policy d));
    [destruct (strict_policy (dmarclib.policy d))|]; reflexivity.
Qed.

Lemma check_dmarc_extras_result (d : dmarclib.DmarcRecord) :
  result (check_dmarc_extras d) = Ret tt.
Proof.
  unfold check_dmarc_extras.
  destruct (truthy (dmarclib.pct d) && negb (eqs (dmarclib.pct d) "100"));
    destruct (truthy (dmarclib.rua d)); destruct (truthy (dmarclib.ruf d));
    reflexivity.
Qed.

Lemma check_dmarc_extras_lookups (d : dmarclib.DmarcRecord) :
  dmarc_lookups (events (check_dmarc_extras d)) = [].
Proof.
  unfold check_dmarc_extras.
  destruct (truthy (dmarclib.pct d) && negb (eqs (dmarclib.pct d) "100"));
    destruct (truthy (dmarclib.rua d)); destruct (truthy (dmarclib.ruf d));
    reflexivity.
Qed.

Lemma get_dmarc_record_result (domain : string) :
  result (get_dmarc_record lib domain) = Ret (dmarc_from_domain lib domain).
Proof.
  unfold get_dmarc_record.
  destruct (dmarc_found (dmarc_from_domain lib domain)); reflexivity.
Qed.

Lemma get_dmarc_record_lookups (domain : string) :
  dmarc_lookups (events (get_dmarc_record lib domain)) = [domain].
Proof.
  unfold get_dmarc_record.
  destruct (dmarc_found (dmarc_from_domain lib domain)); reflexivity.
Qed.

Lemma check_dmarc_org_policy_body_result (base : dmarclib.DmarcRecord) :
  result (check_dmarc_org_policy_body lib base) =
  match get_org_record lib base with
  | Returns (Some org) =>
      Ret (if truthy (dmarclib.record org) then org_verdict org else false)
  | Returns None => Ret false
  | Raises e => Raise e
  end.
Proof.
  unfold check_dmarc_org_policy_body, org_verdict.
  rewrite result_bind. simpl. rewrite result_bind. unfold call.
  destruct (get_org_record lib base) as [[org|]|e]; trivial.
  simpl. destruct (truthy (dmarclib.record org)); trivial.
  rewrite !result_bind. simpl.
  destruct (truthy (dmarclib.subdomain_policy org)).
  - destruct (eqs (dmarclib.subdomain_policy org) "none"); trivial.
    destruct (eqs (dmarclib.subdomain_policy org) "quarantine"
              || eqs (dmarclib.subdomain_policy org) "reject"); reflexivity.
  - rewrite result_bind. simpl. apply check_dmarc_policy_result.
Qed.

Lemma check_dmarc_org_policy_body_lookups (base : dmarclib.DmarcRecord) :
  dmarc_lookups (events (check_dmarc_org_policy_body lib base)) = [].
Proof.
  unfold check_dmarc_org_policy_body.
  rewrite events_bind, dmarc_lookups_app. simpl.
  rewrite events_bind, dmarc_lookups_app. unfold call.
  destruct (get_org_record lib base) as [[org|]|e]; trivial.
  simpl. destruct (truthy (dmarclib.record org)); trivial.
  rewrite !events_bind, !dmarc_lookups_app. simpl.
  destruct (truthy (dmarclib.subdomain_policy org)).
  - destruct (eqs (dmarclib.subdomain_policy org) "none"); trivial.
    destruct (eqs (dmarclib.subdomain_policy org) "quarantine"
              || eqs (dmarclib.subdomain_policy org) "reject"); reflexivity.
  - rewrite events_bind, dmarc_lookups_app. simpl.
    apply check_dmarc_policy_lookups.
Qed.

(** Whatever [get_org_record] raises is handled: the result is [False]. *)
Lemma check_dmarc_org_policy_result (base : dmarclib.DmarcRecord) :
  result (check_dmarc_org_policy lib base) =
  Ret match get_org_record lib base with
      | Returns (Some org) =>
          if truthy (dmarclib.record org) then org_verdict org else false
      | _ => false
      end.
Proof.
  unfold check_dmarc_org_policy.
  rewrite result_try_except, check_dmarc_org_policy_body_result.
  destruct (get_org_record lib base) as [[org|]|e]; trivial.
  destruct e; reflexivity.
Qed.
End DmarcFacts.

Section DmarcEvaluator.
Variable lib : Resolver.

Lemma is_dmarc_record_strong_own_record
      (domain : string) (d : dmarclib.DmarcRecord) :
  dmarc_from_domain lib domain = Some d ->
  truthy (dmarclib.record d) = true ->
  result (is_dmarc_record_strong lib domain) =
  Ret (strict_policy (dmarclib.policy d)).
Proof.
  intros Hl Ht. unfold is_dmarc_record_strong.
  rewrite result_bind, get_dmarc_record_result, Hl, Ht.
  rewrite result_bind, check_dmarc_policy_result.
  rewrite result_bind, check_dmarc_extras_result. reflexivity.
Qed.

Lemma is_dmarc_record_strong_no_own_record
      (domain : string) (d : dmarclib.DmarcRecord) :
  dmarc_from_domain lib domain = Some d ->
  truthy (dmarclib.record d) = false ->
  result (is_dmarc_record_strong lib domain) =
  match dmarclib.get_org_domain d with
  | Returns org_domain =>
      if truthy org_domain then result (check_dmarc_org_policy lib d)
      else Ret false
  | Raises e => Raise e
  end.
Proof.
  intros Hl Ht. unfold is_dmarc_record_strong.
  rewrite result_bind, get_dmarc_record_result, Hl, Ht.
  rewrite result_bind. unfold call.
  destruct (dmarclib.get_org_domain d) as [org_domain|e]; trivial.
  simpl. destruct (truthy org_domain); trivial.
  rewrite result_bind. reflexivity.
Qed.

Lemma is_dmarc_record_strong_no_object (domain : string) :
  dmarc_from_domain lib domain = None ->
  is_dmarc_record_strong lib domain = ([FetchDmarc domain], Raise AttributeError).
Proof.
  intros Hl. unfold is_dmarc_record_strong, get_dmarc_record.
  rewrite Hl. reflexivity.
Qed.

(** The queried domain is looked up for DMARC once, however the
    evaluation ends. *)
Lemma is_dmarc_record_strong_lookups (domain : string) :
  dmarc_lookups (events (is_dmarc_record_strong lib domain)) = [domain].
Proof.
  unfold is_dmarc_record_strong.
  rewrite events_bind, dmarc_lookups_app.
  rewrite get_dmarc_record_lookups, get_dmarc_record_result.
  simpl. f_equal.
  destruct (dmarc_from_domain lib domain) as [d|]; trivial.
  destruct (truthy (dmarclib.record d)).
  - rewrite events_bind, dmarc_lookups_app, check_dmarc_policy_lookups.
    rewrite check_dmarc_policy_result.
    rewrite events_bind, dmarc_lookups_app, check_dmarc_extras_lookups.
    rewrite check_dmarc_extras_result. reflexivity.
  - rewrite events_bind, dmarc_lookups_app. unfold call.
    destruct (dmarclib.get_org_domain d) as [org_domain|e]; trivial.
    simpl. destruct (truthy org_domain); trivial.
    rewrite events_bind, dmarc_lookups_app. simpl.
    unfold check_dmarc_org_policy, try_except.
    pose proof (check_dmarc_org_policy_body_lookups lib d) as Hb.
    destruct (check_dmarc_org_policy_body lib d) as [t [b|e|]]; trivial.
    simpl in Hb.
    destruct e; simpl; rewrite dmarc_lookups_app, Hb; reflexivity.
Qed.
End DmarcEvaluator.

(** The SPF evaluator looks nothing up for DMARC. *)
Lemma check_spf_include_loop_no_dmarc_lookups
      (self : string -> M bool) (l : list string) :
  (forall d, dmarc_lookups (events (self d)) = []) ->
  dmarc_lookups (events (check_spf_include_loop self l)) = [].
Proof.
  intros Hself. induction l as [|i l IH]; simpl; trivial.
  rewrite events_bind, dmarc_lookups_app. simpl.
  rewrite events_bind, dmarc_lookups_app, Hself. simpl.
  destruct (result (self i)) as [[|]| |]; trivial.
Qed.

Lemma is_spf_record_strong_no_dmarc_lookups (lib : Resolver) (fuel : nat) :
  forall domain,
    dmarc_lookups (events (is_spf_record_strong lib fuel domain)) = [].
Proof.
  induction fuel as [|n IH]; intros domain; trivial.
  rewrite is_spf_record_strong_S.
  rewrite events_bind, dmarc_lookups_app. simpl.
  destruct (spf_from_domain lib domain) as [r|]; trivial.
  destruct (truthy (spflib.record r)); trivial.
  do 2 (rewrite events_bind, dmarc_lookups_app; simpl).
  rewrite events_bind, dmarc_lookups_app.
  assert (Hall : dmarc_lookups (events (check_spf_all_string r)) = []).
  { unfold check_spf_all_string, check_spf_include_redirect,
      is_spf_redirect_record_strong, are_spf_include_mechanisms_strong.
    destruct (truthy (spflib.all_string r));
      [destruct (strict_all (spflib.all_string r))|];
      destruct (truthy (spflib.get_redirect_domain r));
      destruct (spflib._is_redirect_mechanism_strong r);
      destruct (spflib._are_include_mechanisms_strong r); reflexivity. }
  rewrite Hall, check_spf_all_string_result. simpl.
  destruct (strict_all (spflib.all_string r) || mechanism_level_strong r);
    cbn [negb]; trivial.
  rewrite events_bind, dmarc_lookups_app.
  assert (Hred : dmarc_lookups
                   (events (check_spf_redirect_mechanisms
                              (is_spf_record_strong lib n) r)) = []).
  { unfold check_spf_redirect_mechanisms.
    destruct (truthy (spflib.get_redirect_domain r)); trivial.
    rewrite events_bind, dmarc_lookups_app. simpl. apply IH. }
  rewrite Hred. simpl.
  destruct (result (check_spf_redirect_mechanisms _ r)) as [rs| |]; trivial.
  rewrite events_bind, dmarc_lookups_app.
  unfold check_spf_include_mechanisms.
  rewrite (check_spf_include_loop_no_dmarc_lookups _ _ IH). simpl.
  destruct (result (check_spf_include_loop _ _)) as [inc| |]; trivial.
  destruct (rs || inc); reflexivity.
Qed.

(** ** The DMARC claims *)

(** C7: for a domain with a DMARC record of its own, [is_dmarc_record_strong]
    returns [True] iff the policy of that record is [quarantine] or
    [reject]; [none] and no policy give [False]; and any other record with
    the same policy, whatever its [pct], [rua] and [ruf], gives the same
    verdict. *)
Theorem C7_own_record_strength_is_its_policy
        (lib : Resolver) (domain : string) (d : dmarclib.DmarcRecord) :
  dmarc_from_domain lib domain = Some d ->
  truthy (dmarclib.record d) = true ->
  (exists b, result (is_dmarc_record_strong lib domain) = Ret b
             /\ (b = true <-> dmarclib.policy d = Some "quarantine"
                              \/ dmarclib.policy d = Some "reject"))
  /\ (dmarclib.policy d = Some "none" \/ dmarclib.policy d = None ->
      result (is_dmarc_record_strong lib domain) = Ret false)
  /\ (forall lib' domain' d',
         dmarc_from_domain lib' domain' = Some d' ->
         truthy (dmarclib.record d') = true ->
         dmarclib.policy d' = dmarclib.policy d ->
         result (is_dmarc_record_strong lib' domain')
         = result (is_dmarc_record_strong lib domain)).
Proof.
  intros Hl Ht.
  rewrite (is_dmarc_record_strong_own_record lib domain d Hl Ht).
  split; [|split].
  - exists (strict_policy (dmarclib.policy d)). split; trivial.
    apply strict_policy_iff.
  - intros [-> | ->]; reflexivity.
  - intros lib' domain' d' Hl' Ht' Hp.
    rewrite (is_dmarc_record_strong_own_record lib' domain' d' Hl' Ht'), Hp.
    reflexivity.
Qed.

Lemma C7_witness :
  result (is_dmarc_record_strong Dns.strong "strong.example") = Ret true.
Proof.
  destruct (C7_own_record_strength_is_its_policy Dns.strong "strong.example"
              (Scenario.dmarc (Some "v=DMARC1; p=reject") (Some "reject") None
                 (Returns (Some "strong.example"))) eq_refl eq_refl)
    as [[b [Hb Hiff]] _].
  rewrite Hb. f_equal. apply Hiff. right. reflexivity.
Defined.

(** C5: for a domain without DMARC text of its own whose organizational
    record is found: a subdomain policy set on the organizational record
    decides alone ([none] gives [False], [quarantine] and [reject] give
    [True], whatever the policy of that record); without one, the verdict
    is that of the organizational record's own policy: [True] iff it is
    [quarantine] or [reject]. *)
Theorem C5_organizational_fallback
        (lib : Resolver) (domain : string)
        (d org : dmarclib.DmarcRecord) (org_domain : option string) :
  dmarc_from_domain lib domain = Some d ->
  truthy (dmarclib.record d) = false ->
  dmarclib.get_org_domain d = Returns org_domain ->
  truthy org_domain = true ->
  get_org_record lib d = Returns (Some org) ->
  truthy (dmarclib.record org) = true ->
  let sp := dmarclib.subdomain_policy org in
  (sp = Some "none" ->
   result (is_dmarc_record_strong lib domain) = Ret false)
  /\ (sp = Some "quarantine" \/ sp = Some "reject" ->
      result (is_dmarc_record_strong lib domain) = Ret true)
  /\ (truthy sp = false ->
      exists b, result (is_dmarc_record_strong lib domain) = Ret b
                /\ (b = true <-> dmarclib.policy org = Some "quarantine"
                                 \/ dmarclib.policy org = Some "reject")).
Proof.
  intros Hl Ht Hod Hto Hor Htr sp.
  rewrite (is_dmarc_record_strong_no_own_record lib domain d Hl Ht).
  rewrite Hod, Hto, check_dmarc_org_policy_result, Hor, Htr.
  unfold org_verdict. fold sp.
  split; [|split].
  - intros ->. reflexivity.
  - intros [-> | ->]; reflexivity.
  - intros ->. exists (strict_policy (dmarclib.policy org)).
    split; trivial. apply strict_policy_iff.
Qed.

Lemma C5_witness :
  result (is_dmarc_record_strong (Dns.subdomain_of Dns.reject_sp_none)
            "no-dmarc.example.com") = Ret false
  /\ result (is_dmarc_record_strong (Dns.subdomain_of Dns.none_sp_reject)
               "no-dmarc.example.com") = Ret true
  /\ result (is_dmarc_record_strong (Dns.subdomain_of Dns.quarantine_no_sp)
               "no-dmarc.example.com") = Ret true.
Proof.
  split; [|split].
  - apply (C5_organizational_fallback (Dns.subdomain_of Dns.reject_sp_none)
             "no-dmarc.example.com"
             (Scenario.no_dmarc_text (Returns (Some "example.com")))
             Dns.reject_sp_none (Some "example.com")
             eq_refl eq_refl eq_refl eq_refl eq_refl eq_refl).
    reflexivity.
  - apply (C5_organizational_fallback (Dns.subdomain_of Dns.none_sp_reject)
             "no-dmarc.example.com"
             (Scenario.no_dmarc_text (Returns (Some "example.com")))
             Dns.none_sp_reject (Some "example.com")
             eq_refl eq_refl eq_refl eq_refl eq_refl eq_refl).
    right. reflexivity.
  - destruct (C5_organizational_fallback (Dns.subdomain_of Dns.quarantine_no_sp)
             "no-dmarc.example.com"
             (Scenario.no_dmarc_text (Returns (Some "example.com")))
             Dns.quarantine_no_sp (Some "example.com")
             eq_refl eq_refl eq_refl eq_refl eq_refl eq_refl)
      as [_ [_ H]].
    destruct (H eq_refl) as [b [Hb Hiff]].
    rewrite Hb. f_equal. apply Hiff. left. reflexivity.
Defined.

(** C10: when the DMARC lookup gives no object at all, the evaluator calls
    [get_org_domain] on [None]: it raises [AttributeError], after the
    lookup, instead of returning [False]. *)
Theorem C10_absent_dmarc_object_is_dereferenced
        (lib : Resolver) (domain : string) :
  dmarc_from_domain lib domain = None ->
  is_dmarc_record_strong lib domain = ([FetchDmarc domain], Raise AttributeError).
Proof.
  apply is_dmarc_record_strong_no_object.
Qed.

Lemma C10_witness :
  dmarc_from_domain Dns.no_dmarc_object "strong.example" = None
  /\ is_dmarc_record_strong Dns.no_dmarc_object "strong.example"
     = ([FetchDmarc "strong.example"], Raise AttributeError).
Proof.
  split; [reflexivity|].
  apply (C10_absent_dmarc_object_is_dereferenced Dns.no_dmarc_object
           "strong.example").
  reflexivity.
Defined.

(** ** The orchestrator *)

Section Orchestrator.
Variable lib : Resolver.

Lemma evaluate_result (fuel : nat) (domain : string) :
  result (evaluate lib fuel domain) =
  match result (is_spf_record_strong lib fuel domain) with
  | Ret true =>
      match result (is_dmarc_record_strong lib domain) with
      | Ret d => Ret (negb d)
      | Raise e => Raise e
      | OutOfFuel => OutOfFuel
      end
  | Ret false => Ret true
  | Raise e => Raise e
  | OutOfFuel => OutOfFuel
  end.
Proof.
  unfold evaluate. rewrite result_bind.
  destruct (result (is_spf_record_strong lib fuel domain)) as [[|]| |];
    trivial.
  rewrite result_bind.
  destruct (result (is_dmarc_record_strong lib domain)) as [[|]| |];
    reflexivity.
Qed.

Lemma evaluate_events (fuel : nat) (domain : string) :
  events (evaluate lib fuel domain) =
  (events (is_spf_record_strong lib fuel domain)
   ++ match result (is_spf_record_strong lib fuel domain) with
      | Ret true =>
          events (is_dmarc_record_strong lib domain)
          ++ match result (is_dmarc_record_strong lib domain) with
             | Ret d => [verdict_event domain (negb d)]
             | _ => []
             end
      | Ret false => [verdict_event domain true]
      | _ => []
      end)%list.
Proof.
  unfold evaluate. rewrite events_bind. f_equal.
  destruct (result (is_spf_record_strong lib fuel domain)) as [[|]| |];
    trivial.
  rewrite events_bind. f_equal.
  destruct (result (is_dmarc_record_strong lib domain)) as [[|]| |];
    reflexivity.
Qed.

(** With a domain on the command line, [main] ends as [evaluate] does,
    unless what is raised is an [IndexError]. *)
Lemma main_result (fuel : nat) (prog domain : string) (rest : list string) :
  result (main lib fuel (prog :: domain :: rest)) =
  match result (evaluate lib fuel domain) with
  | Ret _ => Ret tt
  | Raise IndexError => Ret tt
  | Raise e => Raise e
  | OutOfFuel => OutOfFuel
  end.
Proof.
  unfold main. rewrite result_try_except. simpl.
  rewrite !result_bind. simpl. rewrite result_bind.
  destruct (result (evaluate lib fuel domain)) as [b|e|]; trivial.
  destruct e; reflexivity.
Qed.
End Orchestrator.

(** When the DMARC lookup gives an object without text and [get_org_domain]
    returns, a failure to find the organizational record is handled: the
    verdict is spoofable and nothing is raised. *)
Lemma evaluate_handled_org_failure
      (lib : Resolver) (fuel : nat) (domain : string)
      (d : dmarclib.DmarcRecord) (s : bool) :
  result (is_spf_record_strong lib fuel domain) = Ret s ->
  dmarc_from_domain lib domain = Some d ->
  truthy (dmarclib.record d) = false ->
  org_resolution_fails lib d ->
  result (evaluate lib fuel domain) = Ret true.
Proof.
  intros Hs Hl Ht [org_domain [Hod Hfail]].
  rewrite evaluate_result, Hs. destruct s; trivial.
  rewrite (is_dmarc_record_strong_no_own_record lib domain d Hl Ht), Hod.
  destruct (truthy org_domain); trivial.
  rewrite check_dmarc_org_policy_result.
  destruct Hfail as [Hf | [[e He] | [Hn | [org [Ho Hr]]]]].
  - discriminate.
  - rewrite He. reflexivity.
  - rewrite Hn. reflexivity.
  - rewrite Ho, Hr. reflexivity.
Qed.

(** C6: when both evaluators return, [spf_strong] and [dmarc_strong], the
    verdict is [not (spf_strong and dmarc_strong)]: the domain is narrated
    as not spoofable iff both are strong. *)
Theorem C6_spoofable_unless_both_strong
        (lib : Resolver) (fuel : nat) (domain : string) (spf_strong dmarc_strong : bool) :
  result (is_spf_record_strong lib fuel domain) = Ret spf_strong ->
  result (is_dmarc_record_strong lib domain) = Ret dmarc_strong ->
  let spoofable := negb (spf_strong && dmarc_strong) in
  result (evaluate lib fuel domain) = Ret spoofable
  /\ (exists t, events (evaluate lib fuel domain)
                = (t ++ [verdict_event domain spoofable])%list)
  /\ (spoofable = false <-> spf_strong = true /\ dmarc_strong = true).
Proof.
  intros Hs Hd spoofable. subst spoofable.
  rewrite evaluate_result, evaluate_events, Hs, Hd.
  split; [|split].
  - destruct spf_strong; reflexivity.
  - destruct spf_strong; simpl.
    + exists (events (is_spf_record_strong lib fuel domain)
              ++ events (is_dmarc_record_strong lib domain))%list.
      rewrite app_assoc. reflexivity.
    + exists (events (is_spf_record_strong lib fuel domain)). reflexivity.
  - destruct spf_strong, dmarc_strong; simpl; split;
      (discriminate || tauto || (intros [? ?]; discriminate)).
Qed.

Lemma C6_witness :
  result (evaluate Dns.strong 1 "strong.example") = Ret false
  /\ result (evaluate (Dns.subdomain_of Dns.reject_sp_none) 1
               "no-dmarc.example.com") = Ret true.
Proof.
  split.
  - apply (C6_spoofable_unless_both_strong Dns.strong 1 "strong.example"
             true true eq_refl eq_refl).
  - apply (C6_spoofable_unless_both_strong (Dns.subdomain_of Dns.reject_sp_none)
             1 "no-dmarc.example.com" true false eq_refl eq_refl).
Defined.

(** C1, as the code has it: the SPF evaluator is invoked first; the DMARC
    evaluator is invoked, and its diagnostics produced, exactly when the
    SPF evaluator returned [True].  When it returned [False] the verdict is
    narrated at once and nothing is looked up for DMARC. *)
Theorem C1_dmarc_evaluated_only_after_strong_spf
        (lib : Resolver) (fuel : nat) (domain : string) (spf_strong : bool) :
  result (is_spf_record_strong lib fuel domain) = Ret spf_strong ->
  events (evaluate lib fuel domain) =
  (events (is_spf_record_strong lib fuel domain)
   ++ (if spf_strong then
         events (is_dmarc_record_strong lib domain)
         ++ match result (is_dmarc_record_strong lib domain) with
            | Ret d => [verdict_event domain (negb d)]
            | _ => []
            end
       else [verdict_event domain true]))%list
  /\ dmarc_lookups (events (evaluate lib fuel domain)) =
     (if spf_strong then [domain] else []).
Proof.
  intros Hs. rewrite evaluate_events, Hs. split.
  - destruct spf_strong; reflexivity.
  - rewrite dmarc_lookups_app, is_spf_record_strong_no_dmarc_lookups.
    destruct spf_strong; simpl; trivial.
    rewrite dmarc_lookups_app, is_dmarc_record_strong_lookups.
    destruct (result (is_dmarc_record_strong lib domain)) as [d| |];
      trivial.
    destruct d; reflexivity.
Qed.

Lemma C1_witness :
  dmarc_lookups (events (evaluate Dns.strong 1 "strong.example"))
  = ["strong.example"]
  /\ dmarc_lookups (events (evaluate Dns.unprotected 1 "example.com")) = [].
Proof.
  split.
  - apply (C1_dmarc_evaluated_only_after_strong_spf Dns.strong 1
             "strong.example" true eq_refl).
  - apply (C1_dmarc_evaluated_only_after_strong_spf Dns.unprotected 1
             "example.com" false eq_refl).
Defined.

(** C1 as stated fails: for [example.com] without SPF record the SPF
    evaluator returns [False], and the orchestrator narrates its verdict
    without the lookup and the diagnostics that the DMARC evaluator
    produces for this domain. *)
Lemma C1_counterexample :
  result (is_spf_record_strong Dns.unprotected 1 "example.com") = Ret false
  /\ events (is_dmarc_record_strong Dns.unprotected "example.com")
     = [FetchDmarc "example.com"; Out Good "example.com has no DMARC record!"]
  /\ events (evaluate Dns.unprotected 1 "example.com")
     = [FetchSpf "example.com";
        Out Good "example.com has no SPF record!";
        Out Good "Spoofing possible for example.com!"]
  /\ ~ In (FetchDmarc "example.com")
          (events (evaluate Dns.unprotected 1 "example.com")).
Proof.
  repeat split; try reflexivity.
  vm_compute. intros [H|[H|[H|[]]]]; discriminate.
Qed.

(** C2 at its failing inputs.  [strong.example] is SPF-strong, so the DMARC
    evaluator runs.  When the DMARC lookup gives no object, or when
    [get_org_domain] raises, the call of line 211 is outside every [try]:
    the exception leaves [evaluate] and, not being an [IndexError], the
    program.  The same exception raised by [get_org_record] is caught in
    [check_dmarc_org_policy] and the verdict is spoofable. *)
Theorem C2_unresolved_org_domain_raises :
  (result (is_spf_record_strong Dns.no_dmarc_object 1 "strong.example") = Ret true
   /\ result (evaluate Dns.no_dmarc_object 1 "strong.example")
      = Raise AttributeError
   /\ result (main Dns.no_dmarc_object 1 ["checker.py"; "strong.example"])
      = Raise AttributeError)
  /\ (result (evaluate Dns.org_domain_raises 1 "strong.example")
      = Raise (OtherException "ResolverError")
      /\ result (main Dns.org_domain_raises 1 ["checker.py"; "strong.example"])
         = Raise (OtherException "ResolverError"))
  /\ (result (evaluate (Dns.org_record_raises (OtherException "ResolverError"))
                1 "strong.example") = Ret true
      /\ result (evaluate (Dns.org_record_raises OrgDomainException)
                   1 "strong.example") = Ret true).
Proof.
  repeat split; reflexivity.
Qed.

(** ** Further properties: the command line *)

(** X1: without a domain on the command line nothing is looked up.  When
    [argv] holds the program name, [main] prints the usage line on the
    error channel and ends normally; on an empty [argv] the handler itself
    raises [IndexError]. *)
Theorem X1_main_without_domain_prints_usage
        (lib : Resolver) (fuel : nat) (argv : list string) :
  length argv < 2 ->
  main lib fuel argv =
  match argv with
  | prog :: _ => ([Out Error ("Usage: " ++ prog ++ " [DOMAIN]")], Ret tt)
  | [] => ([], Raise IndexError)
  end.
Proof.
  intros H. destruct argv as [|prog [|domain rest]]; simpl in H;
    try reflexivity.
  lia.
Qed.

Lemma X1_witness :
  main Dns.strong 5 ["checker.py"]
  = ([Out Error "Usage: checker.py [DOMAIN]"], Ret tt).
Proof.
  apply (X1_main_without_domain_prints_usage Dns.strong 5 ["checker.py"]).
  simpl. lia.
Defined.

(** X2: with a domain on the command line, [main] evaluates that domain and
    ignores further arguments.  It ends as the evaluation does, except that
    an [IndexError] raised during the evaluation is taken for a missing
    argument: the usage line is printed after what was narrated so far and
    the program ends normally.  Every other exception leaves the program. *)
Theorem X2_main_with_domain
        (lib : Resolver) (fuel : nat) (prog domain : string) (rest : list string) :
  main lib fuel (prog :: domain :: rest) =
  match result (evaluate lib fuel domain) with
  | Ret _ => (events (evaluate lib fuel domain), Ret tt)
  | Raise IndexError =>
      ((events (evaluate lib fuel domain)
        ++ [usage (prog :: domain :: rest)])%list, Ret tt)
  | Raise e => (events (evaluate lib fuel domain), Raise e)
  | OutOfFuel => (events (evaluate lib fuel domain), OutOfFuel)
  end.
Proof.
  unfold main, try_except, bind, usage, events, result. simpl.
  destruct (evaluate lib fuel domain) as [t [b|e|]]; simpl;
    rewrite ?app_nil_r; trivial.
  destruct e; simpl; rewrite ?app_nil_r; reflexivity.
Qed.

(** X7: a domain without SPF record is reported spoofable after one lookup
    and two lines of narration, whatever its DMARC state is: the DMARC
    evaluator, which could raise, is not reached. *)
Theorem X7_no_spf_record_is_spoofable
        (lib : Resolver) (fuel : nat) (domain : string) :
  spf_found (spf_from_domain lib domain) = false ->
  evaluate lib (S fuel) domain =
  ([FetchSpf domain;
    Out Good (domain ++ " has no SPF record!");
    Out Good ("Spoofing possible for " ++ domain ++ "!")], Ret true).
Proof.
  intros H. unfold evaluate.
  rewrite (is_spf_record_strong_absent lib fuel domain H). reflexivity.
Qed.

Lemma X7_witness :
  evaluate Scenario.nothing 1 "example.com" =
  ([FetchSpf "example.com";
    Out Good "example.com has no SPF record!";
    Out Good "Spoofing possible for example.com!"], Ret true).
Proof.
  apply (X7_no_spf_record_is_spoofable Scenario.nothing 0 "example.com").
  reflexivity.
Defined.

(** ** Further properties: the DMARC evaluator *)

(** X3: whatever [get_org_record] raises, [check_dmarc_org_policy] returns
    [False].  An [OrgDomainException] is narrated as a missing
    organizational record; any other exception is only logged. *)
Theorem X3_org_record_exception_is_handled
        (lib : Resolver) (base : dmarclib.DmarcRecord) (e : exn) :
  get_org_record lib base = Raises e ->
  check_dmarc_org_policy lib base =
  ([FetchOrgDmarc;
    match e with
    | OrgDomainException => Out Good "No organizational DMARC record"
    | _ => LogException e
    end], Ret false).
Proof.
  intros H. unfold check_dmarc_org_policy, check_dmarc_org_policy_body,
              try_except, bind, call.
  simpl. rewrite H. simpl. destruct e; reflexivity.
Qed.

Lemma X3_witness :
  check_dmarc_org_policy (Dns.org_record_raises (OtherException "Timeout"))
    (Scenario.no_dmarc_text (Returns (Some "strong.example")))
  = ([FetchOrgDmarc; LogException (OtherException "Timeout")], Ret false).
Proof.
  apply (X3_org_record_exception_is_handled
           (Dns.org_record_raises (OtherException "Timeout"))
           (Scenario.no_dmarc_text (Returns (Some "strong.example")))
           (OtherException "Timeout")).
  reflexivity.
Defined.

(** The result of the DMARC evaluator, by cases. *)
Lemma is_dmarc_record_strong_result (lib : Resolver) (domain : string) :
  result (is_dmarc_record_strong lib domain) =
  match dmarc_from_domain lib domain with
  | None => Raise AttributeError
  | Some d =>
      if truthy (dmarclib.record d) then Ret (strict_policy (dmarclib.policy d))
      else
        match dmarclib.get_org_domain d with
        | Raises e => Raise e
        | Returns org_domain =>
            if truthy org_domain then
              Ret match get_org_record lib d with
                  | Returns (Some org) =>
                      if truthy (dmarclib.record org) then org_verdict org
                      else false
                  | _ => false
                  end
            else Ret false
        end
  end.
Proof.
  destruct (dmarc_from_domain lib domain) as [d|] eqn:Hl.
  - destruct (truthy (dmarclib.record d)) eqn:Ht.
    + apply (is_dmarc_record_strong_own_record lib domain d Hl Ht).
    + rewrite (is_dmarc_record_strong_no_own_record lib domain d Hl Ht).
      destruct (dmarclib.get_org_domain d) as [od|e]; trivial.
      destruct (truthy od); trivial.
      apply check_dmarc_org_policy_result.
  - rewrite (is_dmarc_record_strong_no_object lib domain Hl). reflexivity.
Qed.

(** X4: [is_dmarc_record_strong] raises in two situations only: the lookup
    gave no object ([AttributeError]), or it gave an object without record
    text whose [get_org_domain] raised (that exception).  In every other
    situation it returns a verdict. *)
Theorem X4_dmarc_evaluator_raises_iff
        (lib : Resolver) (domain : string) (e : exn) :
  (result (is_dmarc_record_strong lib domain) = Raise e <->
   (dmarc_from_domain lib domain = None /\ e = AttributeError)
   \/ (exists d, dmarc_from_domain lib domain = Some d
                 /\ truthy (dmarclib.record d) = false
                 /\ dmarclib.get_org_domain d = Raises e))
  /\ ((forall e', result (is_dmarc_record_strong lib domain) <> Raise e') ->
      exists b, result (is_dmarc_record_strong lib domain) = Ret b).
Proof.
  rewrite is_dmarc_record_strong_result.
  destruct (dmarc_from_domain lib domain) as [d|].
  - destruct (truthy (dmarclib.record d)) eqn:Ht.
    + split.
      * split; [discriminate|].
        intros [[H _] | [d' [H [Ht' _]]]]; [discriminate|].
        injection H as <-. congruence.
      * intros _. eexists. reflexivity.
    + destruct (dmarclib.get_org_domain d) as [od|e0] eqn:Hod.
      * split.
        -- split; [destruct (truthy od); discriminate|].
           intros [[H _] | [d' [H [_ Hr]]]]; [discriminate|].
           injection H as <-. congruence.
        -- intros _. destruct (truthy od); eexists; reflexivity.
      * split.
        -- split.
           ++ intros H. injection H as ->. right. exists d. auto.
           ++ intros [[H _] | [d' [H [_ Hr]]]]; [discriminate|].
              injection H as <-. congruence.
        -- intros H. exfalso. apply (H e0). reflexivity.
  - split.
    + split.
      * intros H. injection H as <-. left. auto.
      * intros [[_ ->] | [d' [H _]]]; [reflexivity | discriminate].
    + intros H. exfalso. apply (H AttributeError). reflexivity.
Qed.

(** X10: a subdomain policy on the organizational record that is none of
    [none], [quarantine], [reject] gives [False], and the policy of the
    organizational record is not consulted, [reject] or not. *)
Theorem X10_unknown_subdomain_policy_is_weak
        (lib : Resolver) (domain : string)
        (d org : dmarclib.DmarcRecord) (org_domain : option string) :
  dmarc_from_domain lib domain = Some d ->
  truthy (dmarclib.record d) = false ->
  dmarclib.get_org_domain d = Returns org_domain ->
  truthy org_domain = true ->
  get_org_record lib d = Returns (Some org) ->
  truthy (dmarclib.record org) = true ->
  truthy (dmarclib.subdomain_policy org) = true ->
  dmarclib.subdomain_policy org <> Some "quarantine" ->
  dmarclib.subdomain_policy org <> Some "reject" ->
  result (is_dmarc_record_strong lib domain) = Ret false.
Proof.
  intros Hl Ht Hod Hto Hor Htr Hsp Hq Hr.
  rewrite is_dmarc_record_strong_result, Hl, Ht, Hod, Hto, Hor, Htr.
  unfold org_verdict. rewrite Hsp.
  destruct (eqs (dmarclib.subdomain_policy org) "none"); trivial.
  destruct (eqs (dmarclib.subdomain_policy org) "quarantine") eqn:E1.
  - apply eqs_true in E1. contradiction.
  - destruct (eqs (dmarclib.subdomain_policy org) "reject") eqn:E2; trivial.
    apply eqs_true in E2. contradiction.
Qed.

Lemma X10_witness :
  result (is_dmarc_record_strong (Dns.subdomain_of Cases.reject_sp_unknown)
            "mail.example.com") = Ret false.
Proof.
  apply (X10_unknown_subdomain_policy_is_weak
           (Dns.subdomain_of Cases.reject_sp_unknown) "mail.example.com"
           (Scenario.no_dmarc_text (Returns (Some "example.com")))
           Cases.reject_sp_unknown (Some "example.com"));
    try reflexivity; discriminate.
Defined.

Lemma X4_witness :
  result (is_dmarc_record_strong (Cases.org_domain_raising (OtherException "Timeout"))
            "strong.example") = Raise (OtherException "Timeout")
  /\ exists b, result (is_dmarc_record_strong Dns.strong "strong.example") = Ret b.
Proof.
  split.
  - apply (X4_dmarc_evaluator_raises_iff
             (Cases.org_domain_raising (OtherException "Timeout"))
             "strong.example" (OtherException "Timeout")).
    right. eexists. repeat split; reflexivity.
  - apply (X4_dmarc_evaluator_raises_iff Dns.strong "strong.example"
             AttributeError).
    intros e'. discriminate.
Defined.

(** X14: [get_dmarc_org_record] has no handler of its own: it gives back
    what [get_org_record] gives, and raises what it raises, while
    [check_dmarc_org_policy] on the same record always returns. *)
Theorem X14_get_dmarc_org_record_propagates
        (lib : Resolver) (base : dmarclib.DmarcRecord) :
  result (get_dmarc_org_record lib base) =
  match get_org_record lib base with
  | Returns org_record => Ret org_record
  | Raises e => Raise e
  end
  /\ exists b, result (check_dmarc_org_policy lib base) = Ret b.
Proof.
  split.
  - unfold get_dmarc_org_record, bind, call.
    destruct (get_org_record lib base) as [[org|]|e]; reflexivity.
  - rewrite check_dmarc_org_policy_result. eexists. reflexivity.
Qed.

(** ** Further properties: the SPF evaluator *)

(** X11: which of the library's checks [check_spf_all_string] runs.
    With a strict [all] it runs none: it narrates the [all] item and
    returns [True].  With a weak [all], a redirect domain and a redirect
    check that says strong, it returns [True] without running the include
    check.  With a weak [all] and no redirect domain it does not run the
    redirect check, whatever that would say, and returns what the include
    check says. *)
Theorem X11_check_spf_all_string_value (r : spflib.SpfRecord) :
  (strict_all (spflib.all_string r) = true ->
   check_spf_all_string r =
   ([Out Indifferent
         ("SPF record contains an All item: " ++ str (spflib.all_string r))],
    Ret true))
  /\ (strict_all (spflib.all_string r) = false ->
      truthy (spflib.get_redirect_domain r) = true ->
      spflib._is_redirect_mechanism_strong r = true ->
      exists first,
        check_spf_all_string r =
        ([first;
          Out Info ("Checking SPF redirect domain: "
                    ++ spflib.get_redirect_domain_repr r);
          Out Bad "Redirect mechanism is strong."], Ret true))
  /\ (strict_all (spflib.all_string r) = false ->
      truthy (spflib.get_redirect_domain r) = false ->
      exists first,
        check_spf_all_string r =
        ([first;
          Out Info "Checking SPF include mechanisms";
          if spflib._are_include_mechanisms_strong r
          then Out Bad "Include mechanisms include a strong record"
          else Out Indifferent "Include mechanisms are not strong"],
         Ret (spflib._are_include_mechanisms_strong r))).
Proof.
  unfold check_spf_all_string, check_spf_include_redirect,
    is_spf_redirect_record_strong, are_spf_include_mechanisms_strong.
  split; [|split].
  - intros Hs. rewrite (strict_all_truthy _ Hs), Hs. reflexivity.
  - intros -> -> ->.
    destruct (truthy (spflib.all_string r)); eexists; reflexivity.
  - intros -> ->.
    destruct (truthy (spflib.all_string r));
      destruct (spflib._are_include_mechanisms_strong r);
      eexists; reflexivity.
Qed.

Lemma X11_witness :
  check_spf_all_string Scenario.softfail =
  ([Out Indifferent "SPF record contains an All item: ~all"], Ret true)
  /\ (exists first,
         check_spf_all_string
           (Scenario.spf "v=spf1 redirect=b.example" None (Some "b.example")
              ["c.example"] true false) =
         ([first;
           Out Info "Checking SPF redirect domain: <bound method SpfRecord.get_redirect_domain>";
           Out Bad "Redirect mechanism is strong."], Ret true))
  /\ (exists first,
         check_spf_all_string
           (Scenario.spf "v=spf1 include:c.example" None None
              ["c.example"] true false) =
         ([first;
           Out Info "Checking SPF include mechanisms";
           Out Indifferent "Include mechanisms are not strong"], Ret false)).
Proof.
  split; [|split].
  - apply (X11_check_spf_all_string_value Scenario.softfail). reflexivity.
  - apply (X11_check_spf_all_string_value
             (Scenario.spf "v=spf1 redirect=b.example" None (Some "b.example")
                ["c.example"] true false)); reflexivity.
  - apply (X11_check_spf_all_string_value
             (Scenario.spf "v=spf1 include:c.example" None None
                ["c.example"] true false)); reflexivity.
Defined.

(** X9: there is no guard against a cycle.  When the record of a domain is
    weak, the library's own checks say nothing, and the record sends the
    evaluation back to the same domain (through its redirect, or without a
    redirect through its first include), the evaluation does not return at
    any depth of recursion, and it looks the domain up again at every
    level. *)
Theorem X9_self_reference_never_returns
        (lib : Resolver) (domain : string) (r : spflib.SpfRecord) :
  spf_from_domain lib domain = Some r ->
  truthy (spflib.record r) = true ->
  strict_all (spflib.all_string r) = false ->
  mechanism_level_strong r = false ->
  refers_to_itself domain r ->
  forall fuel,
    result (is_spf_record_strong lib fuel domain) = OutOfFuel
    /\ spf_lookups (events (is_spf_record_strong lib fuel domain))
       = repeat domain fuel.
Proof.
  apply is_spf_record_strong_self_reference.
Qed.

Lemma X9_witness :
  result (is_spf_record_strong Cases.self_redirect 50 "loop.example") = OutOfFuel
  /\ spf_lookups (events (is_spf_record_strong Cases.self_redirect 3 "loop.example"))
     = ["loop.example"; "loop.example"; "loop.example"].
Proof.
  split.
  - apply (X9_self_reference_never_returns Cases.self_redirect "loop.example"
             (Scenario.spf "v=spf1 redirect=loop.example" None
                (Some "loop.example") [] false false));
      try reflexivity.
    left. split; [reflexivity | discriminate].
  - apply (X9_self_reference_never_returns Cases.self_redirect "loop.example"
             (Scenario.spf "v=spf1 redirect=loop.example" None
                (Some "loop.example") [] false false));
      try reflexivity.
    left. split; [reflexivity | discriminate].
Defined.

(** Where a [True] of the include loop comes from. *)
Lemma check_spf_include_loop_true_has_source
      (lib : Resolver) (self : string -> M bool) (l : list string) :
  (forall d, result (self d) = Ret true ->
             exists s, In s (spf_lookups (events (self d)))
                       /\ strong_source lib s = true) ->
  result (check_spf_include_loop self l) = Ret true ->
  exists s, In s (spf_lookups (events (check_spf_include_loop self l)))
            /\ strong_source lib s = true.
Proof.
  intros Hself. induction l as [|i l IH]; simpl; [discriminate|].
  rewrite !result_bind, !events_bind, !spf_lookups_app. simpl.
  rewrite spf_lookups_app.
  destruct (result (self i)) as [[|]| |] eqn:Hi; try discriminate.
  - intros _. destruct (Hself i Hi) as [s [Hin Hs]].
    exists s. split; trivial. apply in_or_app. left. exact Hin.
  - intros H. destruct (IH H) as [s [Hin Hs]].
    exists s. split; trivial. apply in_or_app. right. exact Hin.
Qed.

Lemma check_spf_include_loop_false_all_weak
      (lib : Resolver) (self : string -> M bool) (l : list string) :
  (forall d, result (self d) = Ret false ->
             forall s, In s (spf_lookups (events (self d))) ->
                       strong_source lib s = false) ->
  result (check_spf_include_loop self l) = Ret false ->
  forall s, In s (spf_lookups (events (check_spf_include_loop self l))) ->
            strong_source lib s = false.
Proof.
  intros Hself. induction l as [|i l IH]; simpl; [intros _ s []|].
  rewrite !result_bind, !events_bind, !spf_lookups_app. simpl.
  rewrite spf_lookups_app.
  destruct (result (self i)) as [[|]| |] eqn:Hi; try discriminate.
  intros H s Hin. apply in_app_or in Hin. destruct Hin as [Hin|Hin].
  - apply (Hself i Hi s Hin).
  - apply (IH H s Hin).
Qed.

(** X12: a [True] of [is_spf_record_strong] always has a source: among the
    domains it looked up there is one whose record is there and either has
    a strict [all] or passes the library's own mechanism check. *)
Theorem X12_spf_strength_has_a_source
        (lib : Resolver) (fuel : nat) (domain : string) :
  result (is_spf_record_strong lib fuel domain) = Ret true ->
  exists s, In s (spf_lookups (events (is_spf_record_strong lib fuel domain)))
            /\ strong_source lib s = true.
Proof.
  revert domain. induction fuel as [|n IH]; intros domain; [discriminate|].
  destruct (spf_found (spf_from_domain lib domain)) eqn:Hf.
  - unfold spf_found in Hf.
    destruct (spf_from_domain lib domain) as [r|] eqn:Hl; [|discriminate].
    rewrite (is_spf_record_strong_found_result lib n domain r Hl Hf).
    rewrite (is_spf_record_strong_found_lookups lib n domain r Hl Hf).
    destruct (strict_all (spflib.all_string r) || mechanism_level_strong r)
      eqn:Hown.
    + intros _. exists domain. split; [left; reflexivity|].
      unfold strong_source. rewrite Hl, Hf, Hown. reflexivity.
    + destruct (result (check_spf_redirect_mechanisms _ r)) as [rs| |] eqn:Hr;
        try discriminate.
      destruct (result (check_spf_include_mechanisms _ r)) as [inc| |] eqn:Hi;
        try discriminate.
      intros H. injection H as H. apply orb_true_iff in H.
      destruct H as [-> | ->].
      * unfold check_spf_redirect_mechanisms in *.
        destruct (truthy (spflib.get_redirect_domain r)); [|discriminate].
        rewrite result_bind in Hr. simpl in Hr.
        rewrite events_bind, spf_lookups_app. simpl.
        destruct (IH _ Hr) as [s [Hin Hs]].
        exists s. split; trivial. right. apply in_or_app. left. exact Hin.
      * destruct (check_spf_include_loop_true_has_source lib _ _ IH Hi)
          as [s [Hin Hs]].
        exists s. split; trivial. right. apply in_or_app. right. exact Hin.
  - rewrite (is_spf_record_strong_absent lib n domain Hf). discriminate.
Qed.

Lemma X12_witness :
  exists s, In s (spf_lookups
                    (events (is_spf_record_strong Cases.include_chain 2 "a.example")))
            /\ strong_source Cases.include_chain s = true.
Proof.
  apply (X12_spf_strength_has_a_source Cases.include_chain 2 "a.example").
  reflexivity.
Defined.

(** X13: a [False] of [is_spf_record_strong] is earned: none of the domains
    it looked up has a record with a strict [all] or one that passes the
    library's own mechanism check. *)
Theorem X13_spf_weakness_saw_no_source
        (lib : Resolver) (fuel : nat) (domain : string) :
  result (is_spf_record_strong lib fuel domain) = Ret false ->
  forall s, In s (spf_lookups (events (is_spf_record_strong lib fuel domain))) ->
            strong_source lib s = false.
Proof.
  revert domain. induction fuel as [|n IH]; intros domain; [discriminate|].
  destruct (spf_found (spf_from_domain lib domain)) eqn:Hf.
  - unfold spf_found in Hf.
    destruct (spf_from_domain lib domain) as [r|] eqn:Hl; [|discriminate].
    rewrite (is_spf_record_strong_found_result lib n domain r Hl Hf).
    rewrite (is_spf_record_strong_found_lookups lib n domain r Hl Hf).
    destruct (strict_all (spflib.all_string r) || mechanism_level_strong r)
      eqn:Hown; [discriminate|].
    destruct (result (check_spf_redirect_mechanisms _ r)) as [rs| |] eqn:Hr;
      try discriminate.
    destruct (result (check_spf_include_mechanisms _ r)) as [inc| |] eqn:Hi;
      try discriminate.
    intros H. injection H as H. apply orb_false_iff in H.
    destruct H as [-> ->].
    intros s [<- | Hin].
    + unfold strong_source. rewrite Hl, Hf, Hown. reflexivity.
    + apply in_app_or in Hin. destruct Hin as [Hin|Hin].
      * unfold check_spf_redirect_mechanisms in *.
        destruct (truthy (spflib.get_redirect_domain r)); [|destruct Hin].
        rewrite result_bind in Hr. simpl in Hr.
        rewrite events_bind, spf_lookups_app in Hin. simpl in Hin.
        apply (IH _ Hr s Hin).
      * apply (check_spf_include_loop_false_all_weak lib _ _ IH Hi s Hin).
  - rewrite (is_spf_record_strong_absent lib n domain Hf).
    intros _ s [<- | []].
    unfold strong_source, spf_found in *.
    destruct (spf_from_domain lib domain) as [r|]; trivial.
    rewrite Hf. reflexivity.
Qed.

Lemma X13_witness :
  strong_source Cases.weak_chain "weak.example" = false.
Proof.
  apply (X13_spf_weakness_saw_no_source Cases.weak_chain 2 "a.example").
  - reflexivity.
  - simpl. right. left. reflexivity.
Defined.

(** ** Further properties: what the DMARC evaluator asks the library *)

Ltac use_cases :=
  simpl; repeat match goal with H : _ = _ |- _ => rewrite H; simpl end.

Ltac case_library :=
  repeat (use_cases;
          match goal with
          | |- context [if ?b then _ else _] => destruct b eqn:?
          | |- context [match dmarclib.get_org_domain ?d with _ => _ end] =>
              destruct (dmarclib.get_org_domain d) as [?|?] eqn:?
          | |- context [match get_org_record ?l ?d with _ => _ end] =>
              destruct (get_org_record l d) as [[?|]|[]] eqn:?
          end);
  use_cases.

Lemma is_dmarc_record_strong_other_lookups (lib : Resolver) (domain : string) :
  spf_lookups (events (is_dmarc_record_strong lib domain)) = []
  /\ org_fetches (events (is_dmarc_record_strong lib domain)) =
     match dmarc_from_domain lib domain with
     | Some d =>
         if truthy (dmarclib.record d) then 0
         else match dmarclib.get_org_domain d with
              | Returns org_domain => if truthy org_domain then 1 else 0
              | Raises _ => 0
              end
     | None => 0
     end.
Proof.
  unfold is_dmarc_record_strong, get_dmarc_record, dmarc_found,
    check_dmarc_org_policy, check_dmarc_org_policy_body, check_dmarc_policy,
    check_dmarc_extras, try_except, bind, call, events.
  destruct (dmarc_from_domain lib domain) as [d|]; [|split; reflexivity].
  case_library; split; reflexivity.
Qed.

(** X15: [is_dmarc_record_strong] asks for the DMARC record of the queried
    domain exactly once, however it ends, and never for an SPF record.  It
    asks for the organizational record at most once, and only when the
    record of the domain has no text and [get_org_domain] gave a domain. *)
Theorem X15_dmarc_evaluator_lookups (lib : Resolver) (domain : string) :
  dmarc_lookups (events (is_dmarc_record_strong lib domain)) = [domain]
  /\ spf_lookups (events (is_dmarc_record_strong lib domain)) = []
  /\ org_fetches (events (is_dmarc_record_strong lib domain)) =
     match dmarc_from_domain lib domain with
     | Some d =>
         if truthy (dmarclib.record d) then 0
         else match dmarclib.get_org_domain d with
              | Returns org_domain => if truthy org_domain then 1 else 0
              | Raises _ => 0
              end
     | None => 0
     end.
Proof.
  split.
  - apply is_dmarc_record_strong_lookups.
  - apply is_dmarc_record_strong_other_lookups.
Qed.
